(** * darts.models.kalman_filter: the [KalmanFilter] filtering model

    A shallow embedding of [src/darts/models/kalman_filter.py] and of the
    collaborators it calls (numpy arrays, the filterpy filter object, the
    time-series container, [raise_if_not], the base-class hook), followed by
    the properties of [KalmanFilter.__init__] and [KalmanFilter.filter].

    Numbers are exact rationals ([Qc]); the rounding of double-precision
    arithmetic is not modelled.  Python exceptions are values of [exn], and
    a computation that raises keeps the mutations made before the raise. *)

From Stdlib Require Import ZArith QArith Qcanon List String Lia.
From stdpp Require Import base list numbers pretty.

Open Scope Z_scope.

(** ** Numbers, exceptions *)

Definition num : Type := Qc.

Definition qc (a : Z) (b : positive) : num := Q2Qc (a # b).

Inductive exn : Type :=
| ValueError (msg : string)       (* numpy: bad dimensions or shapes *)
| LinAlgError (msg : string)      (* numpy.linalg: singular or non-square *)
| IndexError (msg : string)
| AttributeError (name : string)  (* an attribute read before it was set *)
| ValidationError (msg : string)  (* darts.utils.raise_if_not *)
| BaseFilterError.                (* raised by FilteringModel.filter *)

Inductive result (A : Type) : Type :=
| Ok (a : A)
| Raise (e : exn).
Arguments Ok {A} a.
Arguments Raise {A} e.

Definition rbind {A B} (r : result A) (f : A -> result B) : result B :=
  match r with
  | Ok a => f a
  | Raise e => Raise e
  end.

Declare Scope result_scope.
Delimit Scope result_scope with result.
Notation "'let?' x := c 'in' k" := (rbind c (fun x => k))
  (at level 10, x name, c at level 100, k at level 200) : result_scope.

(** ** numpy arrays

    A one-dimensional array is a list; a two-dimensional array is the list of
    its rows together with its number of columns, so that an array with no
    row still has a width.  Operands whose
    shapes do not agree are rejected with [ValueError]; broadcasting between
    different shapes is not modelled.  Sizes are not bounded: the limits of
    memory are not modelled. *)

Module np.

Definition vector : Type := list num.

Record ndarray : Type := mk_ndarray {
  rows : list vector;
  ncols : nat
}.

Definition nrows (a : ndarray) : nat := length (rows a).
Definition shape (a : ndarray) : nat * nat := (nrows a, ncols a).

Definition negative_dims : string := "negative dimensions are not allowed".
Definition not_aligned : string := "shapes not aligned".
Definition no_broadcast : string := "operands could not be broadcast together".
Definition bad_reshape : string := "cannot reshape array".
Definition not_square : string := "Last 2 dimensions of the array must be square".
Definition singular : string := "Singular matrix".

(** [np.array(rows)] for a rectangular list of rows. *)
Definition array (rs : list vector) : ndarray :=
  mk_ndarray rs (match rs with [] => O | r :: _ => length r end).

(** [np.zeros(n,)] *)
Definition zeros (n : Z) : result vector :=
  if n <? 0 then Raise (ValueError negative_dims)
  else Ok (replicate (Z.to_nat n) 0%Qc).

Definition full2 (v : num) (r c : Z) : result ndarray :=
  if (r <? 0) || (c <? 0) then Raise (ValueError negative_dims)
  else Ok (mk_ndarray (replicate (Z.to_nat r) (replicate (Z.to_nat c) v))
             (Z.to_nat c)).

(** [np.zeros((r, c))] and [np.ones((r, c))] *)
Definition zeros2 : Z -> Z -> result ndarray := full2 0%Qc.
Definition ones2 : Z -> Z -> result ndarray := full2 1%Qc.

Definition unit_row (n i : nat) : vector :=
  map (fun j => if Nat.eqb i j then 1%Qc else 0%Qc) (seq 0 n).

Definition identity (n : nat) : ndarray :=
  mk_ndarray (map (unit_row n) (seq 0 n)) n.

(** [np.eye(n)] *)
Definition eye (n : Z) : result ndarray :=
  if n <? 0 then Raise (ValueError negative_dims)
  else Ok (identity (Z.to_nat n)).

Definition vdot (u v : vector) : num :=
  fold_right Qcplus 0%Qc (zip_with Qcmult u v).

Definition column (j : nat) (a : ndarray) : vector :=
  map (fun r => nth j r 0%Qc) (rows a).

(** [a.T] *)
Definition T (a : ndarray) : ndarray :=
  mk_ndarray (map (fun j => column j a) (seq 0 (ncols a))) (nrows a).

(** [np.dot(a, v)] for a matrix and a vector *)
Definition dotv (a : ndarray) (v : vector) : result vector :=
  if Nat.eqb (ncols a) (length v)
  then Ok (map (fun r => vdot r v) (rows a))
  else Raise (ValueError not_aligned).

(** [np.dot(a, b)] for two matrices *)
Definition dot (a b : ndarray) : result ndarray :=
  if Nat.eqb (ncols a) (nrows b)
  then Ok (mk_ndarray (map (fun r => map (vdot r) (rows (T b))) (rows a))
             (ncols b))
  else Raise (ValueError not_aligned).

Definition vzip (op : num -> num -> num) (u v : vector) : result vector :=
  if Nat.eqb (length u) (length v)
  then Ok (zip_with op u v)
  else Raise (ValueError no_broadcast).

Definition vadd : vector -> vector -> result vector := vzip Qcplus.
Definition vsub : vector -> vector -> result vector := vzip Qcminus.

Definition zip2 (op : num -> num -> num) (a b : ndarray) : result ndarray :=
  if Nat.eqb (nrows a) (nrows b) && Nat.eqb (ncols a) (ncols b)
  then Ok (mk_ndarray (zip_with (zip_with op) (rows a) (rows b)) (ncols a))
  else Raise (ValueError no_broadcast).

Definition add : ndarray -> ndarray -> result ndarray := zip2 Qcplus.
Definition sub : ndarray -> ndarray -> result ndarray := zip2 Qcminus.

(** [v.reshape(n,)] of a vector: the size must not change. *)
Definition reshape (v : vector) (n : Z) : result vector :=
  if Z.of_nat (length v) =? n then Ok v
  else Raise (ValueError bad_reshape).

(** *** [np.linalg.inv] by Gauss-Jordan elimination

    The rows of [a | I] are reduced column by column.  [reduced] holds the
    rows whose pivot columns are already handled, in pivot order; [pending]
    holds the others. *)

Definition scale (c : num) (r : vector) : vector := map (Qcmult c) r.

(** [r - r[j] * p]: clear column [j] of [r] with the pivot row [p]. *)
Definition eliminate (j : nat) (p r : vector) : vector :=
  zip_with Qcminus r (scale (nth j r 0%Qc) p).

(** The first row of [rs] with a non-zero entry in column [j], and the
    other rows. *)
Fixpoint find_pivot (j : nat) (rs : list vector)
  : option (vector * list vector) :=
  match rs with
  | [] => None
  | r :: rs' =>
      if bool_decide (nth j r 0%Qc = 0%Qc)
      then match find_pivot j rs' with
           | Some (p, others) => Some (p, r :: others)
           | None => None
           end
      else Some (r, rs')
  end.

Fixpoint gauss_jordan (cols : list nat) (reduced pending : list vector)
  : option (list vector) :=
  match cols with
  | [] => Some reduced
  | j :: cols' =>
      match find_pivot j pending with
      | None => None
      | Some (p, others) =>
          let p' := scale (Qcinv (nth j p 0%Qc)) p in
          gauss_jordan cols'
            (map (eliminate j p') reduced ++ [p'])
            (map (eliminate j p') others)
      end
  end.

Definition inv (a : ndarray) : result ndarray :=
  if Nat.eqb (nrows a) (ncols a) then
    let n := nrows a in
    match gauss_jordan (seq 0 n) []
            (zip_with app (rows a) (rows (identity n))) with
    | Some rs => Ok (mk_ndarray (map (drop n) rs) n)
    | None => Raise (LinAlgError singular)
    end
  else Raise (LinAlgError not_square).

End np.

(** ** The filterpy filter object

    [filterpy.kalman.KalmanFilter] is an external library: the object is a
    record of the attributes that [KalmanFilter.filter] assigns and reads,
    and its two methods follow the equations of the specification. *)

Module FpKalmanFilter.

Record t : Type := mk {
  dim_x : Z;
  dim_z : Z;
  x : np.vector;     (* state mean *)
  P : np.ndarray;    (* state covariance *)
  Q : np.ndarray;    (* process noise *)
  R : np.ndarray;    (* measurement noise *)
  H : np.ndarray;    (* observation map *)
  F : np.ndarray     (* state transition *)
}.

(** Modelled from the spec: the constructor [FpKalmanFilter(dim_x, dim_z)]
    of the external filter, "size dim_x as configured, dim_z as observed
    from the input".  Its arrays start as zero and identity arrays of these
    sizes, built by numpy. *)
Definition __init__ (dx dz : Z) : result t :=
  (let? x0 := np.zeros dx in
   let? P0 := np.eye dx in
   let? Q0 := np.eye dx in
   let? R0 := np.eye dz in
   let? H0 := np.zeros2 dz dx in
   let? F0 := np.eye dx in
   Ok (mk dx dz x0 P0 Q0 R0 H0 F0))%result.

(** Attribute assignments [kf.x = v], [kf.P = v], ... *)
Definition set_x (v : np.vector) (k : t) : t :=
  mk (dim_x k) (dim_z k) v (P k) (Q k) (R k) (H k) (F k).
Definition set_P (v : np.ndarray) (k : t) : t :=
  mk (dim_x k) (dim_z k) (x k) v (Q k) (R k) (H k) (F k).
Definition set_Q (v : np.ndarray) (k : t) : t :=
  mk (dim_x k) (dim_z k) (x k) (P k) v (R k) (H k) (F k).
Definition set_R (v : np.ndarray) (k : t) : t :=
  mk (dim_x k) (dim_z k) (x k) (P k) (Q k) v (H k) (F k).
Definition set_H (v : np.ndarray) (k : t) : t :=
  mk (dim_x k) (dim_z k) (x k) (P k) (Q k) (R k) v (F k).
Definition set_F (v : np.ndarray) (k : t) : t :=
  mk (dim_x k) (dim_z k) (x k) (P k) (Q k) (R k) (H k) v.

(** Modelled from the spec: the predict step of the external filter,
    "mean' = F·mean, covariance' = F·covariance·Fᵗ + Q". *)
Definition predict (k : t) : result t :=
  (let? mean' := np.dotv (F k) (x k) in
   let? FP := np.dot (F k) (P k) in
   let? FPFt := np.dot FP (np.T (F k)) in
   let? cov' := np.add FPFt (Q k) in
   Ok (set_P cov' (set_x mean' k)))%result.

(** Modelled from the spec: the update step of the external filter,
    "innovation = obs − H·mean', S = H·covariance'·Hᵗ + R,
    K = covariance'·Hᵗ·S⁻¹, mean'' = mean' + K·innovation,
    covariance'' = (I − K·H)·covariance'". *)
Definition update (obs : np.vector) (k : t) : result t :=
  (let? Hx := np.dotv (H k) (x k) in
   let? innovation := np.vsub obs Hx in
   let? HP := np.dot (H k) (P k) in
   let? HPHt := np.dot HP (np.T (H k)) in
   let? S := np.add HPHt (R k) in
   let? PHt := np.dot (P k) (np.T (H k)) in
   let? SI := np.inv S in
   let? K := np.dot PHt SI in
   let? Ky := np.dotv K innovation in
   let? mean'' := np.vadd (x k) Ky in
   let? I := np.eye (dim_x k) in
   let? KH := np.dot K (H k) in
   let? I_KH := np.sub I KH in
   let? cov'' := np.dot I_KH (P k) in
   Ok (set_P cov'' (set_x mean'' k)))%result.

End FpKalmanFilter.

(** ** The time-series container *)

Module TimeSeries.

(** Modelled from the spec: the time-indexed container, "exposed with:
    width (number of value columns), values() (the raw T×width numeric
    array), time_index() (the T timestamps), and a constructor
    from_times_and_values(times, values)". *)
Record t : Type := mk {
  index : list Z;
  data : np.ndarray
}.

Definition width (s : t) : nat := np.ncols (data s).
Definition values (s : t) : np.ndarray := data s.
Definition time_index (s : t) : list Z := index s.

Definition empty_message : string := "Time series must not be empty.".

(** Modelled from the spec: the constructor of the container.  A sequence
    has "length T≥1": the constructor refuses an array with no row. *)
Definition from_times_and_values (times : list Z) (vals : np.ndarray)
  : result t :=
  match np.rows vals with
  | [] => Raise (ValueError empty_message)
  | _ :: _ => Ok (mk times vals)
  end.

End TimeSeries.

(** [len(a)] of a two-dimensional array: its number of rows. *)
Definition len (a : np.ndarray) : nat := np.nrows a.

(** ** The store and the monad of the Python code

    A [FpKalmanFilter] object lives in a store and is named by its location:
    [self.kf] holds a reference, and [predict] and [update] mutate the object
    in place.  The store only grows, by one object per constructor call. *)

Definition loc : Type := nat.

Module KalmanFilter.

(** The attributes assigned together by the [kf is None] branch of
    [__init__]. *)
Record attrs : Type := mk_attrs {
  dim_x : Z;
  x_init : np.vector;
  P : np.ndarray;
  Q : np.ndarray;
  R : option np.ndarray;
  H : option np.ndarray;
  F : np.ndarray
}.

(** The model object: [params] is [None] when [__init__] took the branch
    that assigns only [self.kf]. *)
Record t : Type := mk {
  params : option attrs;
  kf : option loc
}.

Record world : Type := mk_world {
  heap : list FpKalmanFilter.t;
  self : t
}.

Definition M (A : Type) : Type := world -> result A * world.

Definition ret {A} (a : A) : M A := fun w => (Ok a, w).
Definition raise {A} (e : exn) : M A := fun w => (Raise e, w).
Definition bind {A B} (c : M A) (f : A -> M B) : M B :=
  fun w => match c w with
           | (Ok a, w') => f a w'
           | (Raise e, w') => (Raise e, w')
           end.
Definition lift {A} (r : result A) : M A := fun w => (r, w).

Declare Scope py_scope.
Delimit Scope py_scope with py.
Notation "x <- c ;; k" := (bind c (fun x => k))
  (at level 20, c at level 99, k at level 200, only parsing) : py_scope.
Notation "c ;; k" := (bind c (fun _ => k))
  (at level 100, k at level 200, only parsing) : py_scope.
Local Open Scope py_scope.

(** [self.<name>] for one of the attributes of [attrs] *)
Definition getattr {A} (name : string) (f : attrs -> A) : M A :=
  fun w => match params (self w) with
           | Some p => (Ok (f p), w)
           | None => (Raise (AttributeError name), w)
           end.

(** [self.kf] *)
Definition get_kf : M (option loc) := fun w => (Ok (kf (self w)), w).

(** [self.kf = r] *)
Definition set_kf (r : loc) : M unit :=
  fun w => (Ok tt, mk_world (heap w) (mk (params (self w)) (Some r))).

(** A constructor call: the new object is appended to the store. *)
Definition new (k : FpKalmanFilter.t) : M loc :=
  fun w => (Ok (length (heap w)), mk_world (heap w ++ [k]) (self w)).

(** Reading the object behind a reference.  A reference handed out by [new]
    always names an object; the other case only makes the function total. *)
Definition deref (r : loc) : M FpKalmanFilter.t :=
  fun w => match heap w !! r with
           | Some k => (Ok k, w)
           | None => (Raise (AttributeError "kf"), w)
           end.

(** An attribute assignment on the object behind a reference. *)
Definition assign (r : loc) (f : FpKalmanFilter.t -> FpKalmanFilter.t)
  : M unit :=
  fun w => (Ok tt, mk_world (alter f r (heap w)) (self w)).

(** A method call that mutates the object in place, or raises.  A call that
    raises is taken to leave the object as it was, as when the exception
    comes before the first assignment of the method. *)
Definition call (r : loc)
    (m : FpKalmanFilter.t -> result FpKalmanFilter.t) : M unit :=
  k <- deref r ;;
  k' <- lift (m k) ;;
  fun w => (Ok tt, mk_world (<[r := k']> (heap w)) (self w)).

(** [self.kf.<method>()]: a method call through the reference held by
    [self.kf]. *)
Definition self_kf : M loc :=
  o <- get_kf ;;
  match o with
  | Some r => ret r
  | None => raise (AttributeError "NoneType")
  end.

(** Modelled from the spec: the validation helper, "raise_if_not(condition,
    message) — fails with a descriptive error when the condition is
    false". *)
Definition raise_if_not (condition : bool) (message : string) : M unit :=
  if condition then ret tt else raise (ValidationError message).

Definition dim_z_message : string :=
  "The provided TimeSeries dimensionality does not match the filter observation dimensionality dim_z.".

(** [x if x is not None else d] for a default [d] that reads no attribute *)
Definition or_else {A} (o : option A) (d : result A) : result A :=
  match o with
  | Some a => Ok a
  | None => d
  end.

(** [KalmanFilter.__init__]: the object it leaves, or the exception of a
    numpy default.  [kf] is a reference to an instance built by the
    caller. *)
Definition __init__ (dim_x : Z) (x_init : option np.vector)
    (P Q R H F : option np.ndarray) (kf : option loc) : result t :=
  match kf with
  | None =>
      (let? x_init' := or_else x_init (np.zeros dim_x) in
       let? P' := or_else P (np.eye dim_x) in
       let? Q' := or_else Q (np.eye dim_x) in
       let? F' := or_else F (np.eye dim_x) in
       Ok (mk (Some (mk_attrs dim_x x_init' P' Q' R H F')) None))%result
  | Some r => Ok (mk None (Some r))
  end.

(** [KalmanFilter.__str__]: ['KalmanFilter(dim_x={})'.format(self.dim_x)],
    the integer printed in decimal. *)
Definition __str__ : M string :=
  dx <- getattr "dim_x" dim_x ;;
  ret ("KalmanFilter(dim_x=" +:+ pretty dx +:+ ")").

Section Filter.

(** Modelled from the spec: the hook of the base class, "a pre/post hook
    around filter (e.g., input validation already performed by the base
    type)", which accepts a series or raises. *)
Variable base_accepts : TimeSeries.t -> bool.

Definition super_filter (series : TimeSeries.t) : M unit :=
  if base_accepts series then ret tt else raise BaseFilterError.

(** [values[i, :]] *)
Definition row (values : np.ndarray) (i : nat) : result np.vector :=
  match np.rows values !! i with
  | Some r => Ok r
  | None => Raise (IndexError "index out of bounds")
  end.

(** [a[i, :] = r] *)
Definition set_row (a : np.ndarray) (i : nat) (r : np.vector)
  : np.ndarray :=
  np.mk_ndarray (<[i := r]> (np.rows a)) (np.ncols a).

(** The body of [for i in range(len(values))], over the indices still to
    visit. *)
Fixpoint for_range (range : list nat) (values filtered_values : np.ndarray)
  : M np.ndarray :=
  match range with
  | [] => ret filtered_values
  | i :: range' =>
      obs <- lift (row values i) ;;
      r <- self_kf ;;
      call r FpKalmanFilter.predict ;;
      r <- self_kf ;;
      call r (FpKalmanFilter.update obs) ;;
      r <- self_kf ;;
      k <- deref r ;;
      dx <- getattr "dim_x" dim_x ;;
      x' <- lift (np.reshape (FpKalmanFilter.x k) dx) ;;
      for_range range' values (set_row filtered_values i x')
  end.

(** [KalmanFilter.filter] *)
Definition filter (series : TimeSeries.t) : M TimeSeries.t :=
  let dim_z := Z.of_nat (TimeSeries.width series) in
  o <- get_kf ;;
  match o with
  | None =>
      dx <- getattr "dim_x" dim_x ;;
      k0 <- lift (FpKalmanFilter.__init__ dx dim_z) ;;
      kf <- new k0 ;;
      v <- getattr "x_init" x_init ;;
      assign kf (FpKalmanFilter.set_x v) ;;
      v <- getattr "P" P ;;
      assign kf (FpKalmanFilter.set_P v) ;;
      v <- getattr "Q" Q ;;
      assign kf (FpKalmanFilter.set_Q v) ;;
      o <- getattr "R" R ;;
      v <- match o with
           | Some a => ret a
           | None => lift (np.eye dim_z)
           end ;;
      assign kf (FpKalmanFilter.set_R v) ;;
      o <- getattr "H" H ;;
      v <- match o with
           | Some a => ret a
           | None =>
               dx <- getattr "dim_x" dim_x ;;
               lift (np.ones2 dim_z dx)
           end ;;
      assign kf (FpKalmanFilter.set_H v) ;;
      v <- getattr "F" F ;;
      assign kf (FpKalmanFilter.set_F v) ;;
      set_kf kf
  | Some r =>
      k <- deref r ;;
      raise_if_not (dim_z =? FpKalmanFilter.dim_z k) dim_z_message
  end ;;
  super_filter series ;;
  let values := TimeSeries.values series in
  dx <- getattr "dim_x" dim_x ;;
  filtered_values <- lift (np.zeros2 (Z.of_nat (len values)) dx) ;;
  filtered_values <-
    for_range (seq 0 (len values)) values filtered_values ;;
  lift (TimeSeries.from_times_and_values
          (TimeSeries.time_index series) filtered_values).

End Filter.

End KalmanFilter.

(** ** A pure account of the loop of [filter]

    [run dx k obss] is what the loop does to the filter object [k] over the
    observations [obss]: the rows it records, or the exception that stopped
    it, and the object as the loop left it. *)

Definition step (obs : np.vector) (k : FpKalmanFilter.t)
  : result FpKalmanFilter.t :=
  (let? k1 := FpKalmanFilter.predict k in FpKalmanFilter.update obs k1)%result.

Fixpoint steps (k : FpKalmanFilter.t) (obss : list np.vector)
  : result FpKalmanFilter.t :=
  match obss with
  | [] => Ok k
  | obs :: obss' => (let? k' := step obs k in steps k' obss')%result
  end.

Fixpoint run (dx : Z) (k : FpKalmanFilter.t) (obss : list np.vector)
  : result (list np.vector) * FpKalmanFilter.t :=
  match obss with
  | [] => (Ok [], k)
  | obs :: obss' =>
      match FpKalmanFilter.predict k with
      | Raise e => (Raise e, k)
      | Ok k1 =>
          match FpKalmanFilter.update obs k1 with
          | Raise e => (Raise e, k1)
          | Ok k2 =>
              match np.reshape (FpKalmanFilter.x k2) dx with
              | Raise e => (Raise e, k2)
              | Ok r =>
                  match run dx k2 obss' with
                  | (Ok outs, k') => (Ok (r :: outs), k')
                  | (Raise e, k') => (Raise e, k')
                  end
              end
          end
      end
  end.

(** The object that the first call builds from the stored parameters, lines
    101 to 107 of the source. *)
Definition built (p : KalmanFilter.attrs) (dz : nat) : FpKalmanFilter.t :=
  FpKalmanFilter.mk (KalmanFilter.dim_x p) (Z.of_nat dz)
    (KalmanFilter.x_init p) (KalmanFilter.P p) (KalmanFilter.Q p)
    (match KalmanFilter.R p with
     | Some r => r
     | None => np.identity dz
     end)
    (match KalmanFilter.H p with
     | Some h => h
     | None =>
         np.mk_ndarray
           (replicate dz (replicate (Z.to_nat (KalmanFilter.dim_x p)) 1%Qc))
           (Z.to_nat (KalmanFilter.dim_x p))
     end)
    (KalmanFilter.F p).

(** The world once [r] holds [k]. *)
Definition store (r : loc) (k : FpKalmanFilter.t) (w : KalmanFilter.world)
  : KalmanFilter.world :=
  KalmanFilter.mk_world (<[r := k]> (KalmanFilter.heap w)) (KalmanFilter.self w).

(** The world once the first call has built and cached its filter object. *)
Definition cached (p : KalmanFilter.attrs) (dz : nat) (w : KalmanFilter.world)
  : KalmanFilter.world :=
  KalmanFilter.mk_world (KalmanFilter.heap w ++ [built p dz])
    (KalmanFilter.mk (Some p) (Some (length (KalmanFilter.heap w)))).

Definition estimates (s : TimeSeries.t) (dx : Z) (outs : list np.vector)
  : TimeSeries.t :=
  TimeSeries.mk (TimeSeries.index s) (np.mk_ndarray outs (Z.to_nat dx)).

(** What a call does once [self.kf] holds a reference [r] to [k]. *)
Definition cached_call (base_accepts : TimeSeries.t -> bool)
    (s : TimeSeries.t) (r : loc) (k : FpKalmanFilter.t)
    (w : KalmanFilter.world) : result TimeSeries.t * KalmanFilter.world :=
  if Z.of_nat (TimeSeries.width s) =? FpKalmanFilter.dim_z k then
    if base_accepts s then
      match KalmanFilter.params (KalmanFilter.self w) with
      | None => (Raise (AttributeError "dim_x"), w)
      | Some p =>
          if KalmanFilter.dim_x p <? 0
          then (Raise (ValueError np.negative_dims), w)
          else
            match run (KalmanFilter.dim_x p) k
                    (np.rows (TimeSeries.values s)) with
            | (Ok outs, k') =>
                (TimeSeries.from_times_and_values (TimeSeries.time_index s)
                   (np.mk_ndarray outs (Z.to_nat (KalmanFilter.dim_x p))),
                 store r k' w)
            | (Raise e, k') => (Raise e, store r k' w)
            end
      end
    else (Raise BaseFilterError, w)
  else (Raise (ValidationError KalmanFilter.dim_z_message), w).

(** The attributes that neither predict nor update assigns. *)
Definition same_config (k k' : FpKalmanFilter.t) : Prop :=
  FpKalmanFilter.dim_x k' = FpKalmanFilter.dim_x k /\
  FpKalmanFilter.dim_z k' = FpKalmanFilter.dim_z k /\
  FpKalmanFilter.Q k' = FpKalmanFilter.Q k /\
  FpKalmanFilter.R k' = FpKalmanFilter.R k /\
  FpKalmanFilter.H k' = FpKalmanFilter.H k /\
  FpKalmanFilter.F k' = FpKalmanFilter.F k.

(** The exceptions that numpy raises. *)
Definition numpy_exn (e : exn) : Prop :=
  match e with
  | ValueError _ | LinAlgError _ => True
  | _ => False
  end.

(** ** The filter object a call works on *)

(** The reference held by [self.kf] and the object behind it when the loop
    starts: the cached one, or the one the call builds. *)
Definition entry (w : KalmanFilter.world) (s : TimeSeries.t)
  : option (loc * FpKalmanFilter.t) :=
  match KalmanFilter.kf (KalmanFilter.self w) with
  | Some r =>
      match KalmanFilter.heap w !! r with
      | Some k => Some (r, k)
      | None => None
      end
  | None =>
      match KalmanFilter.params (KalmanFilter.self w) with
      | Some p =>
          Some (length (KalmanFilter.heap w), built p (TimeSeries.width s))
      | None => None
      end
  end.

(** The world when the loop starts. *)
Definition prepared (w : KalmanFilter.world) (s : TimeSeries.t)
  : KalmanFilter.world :=
  match KalmanFilter.kf (KalmanFilter.self w),
        KalmanFilter.params (KalmanFilter.self w) with
  | None, Some p => cached p (TimeSeries.width s) w
  | _, _ => w
  end.

(** The concatenation of two series of the same width. *)
Definition concat (s1 s2 : TimeSeries.t) : TimeSeries.t :=
  TimeSeries.mk (TimeSeries.index s1 ++ TimeSeries.index s2)
    (np.mk_ndarray
       (np.rows (TimeSeries.data s1) ++ np.rows (TimeSeries.data s2))
       (np.ncols (TimeSeries.data s1))).

(** Any number of calls, one after the other, whatever each returns. *)
Fixpoint filter_all (base_accepts : TimeSeries.t -> bool)
    (calls : list TimeSeries.t) (w : KalmanFilter.world)
  : KalmanFilter.world :=
  match calls with
  | [] => w
  | s :: calls' =>
      filter_all base_accepts calls'
        (snd (KalmanFilter.filter base_accepts s w))
  end.

(** What every call keeps once the model holds [r]: the reference, the
    parameters, the size of the store and the objects before [r], and the
    configuration of the object behind [r]. *)
Definition holds (r : loc) (p : KalmanFilter.attrs) (k0 : FpKalmanFilter.t)
    (h : list FpKalmanFilter.t) (w : KalmanFilter.world) : Prop :=
  KalmanFilter.kf (KalmanFilter.self w) = Some r /\
  KalmanFilter.params (KalmanFilter.self w) = Some p /\
  length (KalmanFilter.heap w) = S (length h) /\
  take (length h) (KalmanFilter.heap w) = h /\
  exists k, KalmanFilter.heap w !! r = Some k /\ same_config k0 k.

(** ** A scalar scenario: [dim_x = 1], every matrix the 1×1 matrix 1,
    [x_init = 0], observations 5, 5, 5 *)

Definition scalar (v : num) : np.ndarray := np.array [[v]].

Definition scalar_params : KalmanFilter.attrs :=
  KalmanFilter.mk_attrs 1 [qc 0 1] (scalar (qc 1 1)) (scalar (qc 1 1))
    (Some (scalar (qc 1 1))) (Some (scalar (qc 1 1))) (scalar (qc 1 1)).

Definition scalar_model : KalmanFilter.t :=
  KalmanFilter.mk (Some scalar_params) None.

Definition scalar_world : KalmanFilter.world :=
  KalmanFilter.mk_world [] scalar_model.

Definition fives (times : list Z) : TimeSeries.t :=
  TimeSeries.mk times (np.mk_ndarray (map (fun _ => [qc 5 1]) times) 1).

(** The filter object with mean [x] and covariance [P], all else 1. *)
Definition scalar_kf (x P : num) : FpKalmanFilter.t :=
  FpKalmanFilter.mk 1 1 [x] (scalar P) (scalar (qc 1 1)) (scalar (qc 1 1))
    (scalar (qc 1 1)) (scalar (qc 1 1)).

(** The world once the scalar model holds [k]. *)
Definition scalar_holding (k : FpKalmanFilter.t) : KalmanFilter.world :=
  KalmanFilter.mk_world [k] (KalmanFilter.mk (Some scalar_params) (Some O)).

Definition always (s : TimeSeries.t) : bool := true.

(** The output of the scalar scenario at times 0, 1, 2, and a series of
    width 2. *)
Definition three_estimates : TimeSeries.t :=
  TimeSeries.mk [0; 1; 2]
    (np.mk_ndarray [[qc 10 3]; [qc 35 8]; [qc 100 21]] 1).

Definition pairs : TimeSeries.t :=
  TimeSeries.mk [0] (np.mk_ndarray [[qc 5 1; qc 5 1]] 2).

(** The output of the scalar scenario continued at times 3, 4, 5, and the
    filter object it ends with. *)
Definition later_estimates : TimeSeries.t :=
  TimeSeries.mk [3; 4; 5]
    (np.mk_ndarray [[qc 54 11]; [qc 715 144]; [qc 1880 377]] 1).

Definition six_kf : FpKalmanFilter.t := scalar_kf (qc 1880 377) (qc 233 377).

(** ** A noise-free scalar scenario: [Q = R = 0], all else as before *)

Definition noiseless_params : KalmanFilter.attrs :=
  KalmanFilter.mk_attrs 1 [qc 0 1] (scalar (qc 1 1)) (scalar (qc 0 1))
    (Some (scalar (qc 0 1))) (Some (scalar (qc 1 1))) (scalar (qc 1 1)).

(** The filter object of that scenario, with mean [x] and covariance [P]. *)
Definition noiseless_kf (x P : num) : FpKalmanFilter.t :=
  FpKalmanFilter.mk 1 1 [x] (scalar P) (scalar (qc 0 1)) (scalar (qc 0 1))
    (scalar (qc 1 1)) (scalar (qc 1 1)).

(** The world once the noise-free model holds [k]. *)
Definition noiseless_holding (k : FpKalmanFilter.t) : KalmanFilter.world :=
  KalmanFilter.mk_world [k] (KalmanFilter.mk (Some noiseless_params) (Some O)).

(** The innovation covariance [S = H·covariance·Hᵗ + R] that the update step
    inverts. *)
Definition innovation_covariance (k : FpKalmanFilter.t)
  : result np.ndarray :=
  (let? HP := np.dot (FpKalmanFilter.H k) (FpKalmanFilter.P k) in
   let? HPHt := np.dot HP (np.T (FpKalmanFilter.H k)) in
   np.add HPHt (FpKalmanFilter.R k))%result.

(** A base class that accepts no series. *)
Definition never (s : TimeSeries.t) : bool := false.

(** A model with [dim_x = -1], which [__init__] builds when the four arrays
    are given, in an empty store. *)
Definition negative_params : KalmanFilter.attrs :=
  KalmanFilter.mk_attrs (-1) [] (np.array []) (np.array []) None None
    (np.array []).

Definition negative_world : KalmanFilter.world :=
  KalmanFilter.mk_world [] (KalmanFilter.mk (Some negative_params) None).

(** A model built around a supplied scalar filter object. *)
Definition prebuilt_world : KalmanFilter.world :=
  KalmanFilter.mk_world [scalar_kf (qc 0 1) (qc 1 1)]
    (KalmanFilter.mk None (Some O)).

(** * Lemmas *)

(** Evaluation of a closed computation over [Qc], up to the proofs that the
    fractions are reduced. *)
Ltac qc_eval :=
  vm_compute; repeat (f_equal; try (apply Qc_is_canon; reflexivity)).

(** ** The matrix inverse on small inputs *)

Lemma inv_scalar (a : num) :
  a <> 0%Qc -> np.inv (np.array [[a]]) = Ok (np.array [[(/ a)%Qc]]).
Proof.
  intros Ha. unfold np.inv, np.array. simpl.
  rewrite bool_decide_eq_false_2 by done. simpl.
  unfold np.scale. simpl. by rewrite Qcmult_1_r.
Qed.

Example inv_2x2 :
  np.inv (np.array [[qc 2 1; qc 1 1]; [qc 1 1; qc 3 1]])
  = Ok (np.array [[qc 3 5; qc (-1) 5]; [qc (-1) 5; qc 2 5]]).
Proof. qc_eval. Qed.

Example inv_2x2_inverts :
  (let? i := np.inv (np.array [[qc 2 1; qc 1 1]; [qc 1 1; qc 3 1]]) in
   np.dot (np.array [[qc 2 1; qc 1 1]; [qc 1 1; qc 3 1]]) i)%result
  = Ok (np.identity 2).
Proof. qc_eval. Qed.

Example inv_swaps_rows :
  np.inv (np.array [[qc 0 1; qc 2 1]; [qc 4 1; qc 0 1]])
  = Ok (np.array [[qc 0 1; qc 1 4]; [qc 1 2; qc 0 1]]).
Proof. qc_eval. Qed.

Example inv_singular :
  np.inv (np.array [[qc 1 1; qc 2 1]; [qc 2 1; qc 4 1]])
  = Raise (LinAlgError np.singular).
Proof. reflexivity. Qed.

(** ** The loop and its pure account *)

Section Loop.

Import KalmanFilter.

Lemma store_id r k w : heap w !! r = Some k -> store r k w = w.
Proof.
  intros Hk. destruct w as [h s]. unfold store. simpl in *.
  f_equal. by apply list_insert_id.
Qed.

Lemma store_store r k k' w : store r k' (store r k w) = store r k' w.
Proof. unfold store. simpl. f_equal. apply list_insert_insert_eq. Qed.

Lemma store_lookup r k k0 w :
  heap w !! r = Some k0 -> heap (store r k w) !! r = Some k.
Proof.
  intros Hk. simpl. apply list_lookup_insert_eq.
  by apply lookup_lt_Some in Hk.
Qed.

Lemma call_ok r m k k' w :
  heap w !! r = Some k -> m k = Ok k' ->
  call r m w = (Ok tt, store r k' w).
Proof.
  intros Hk Hm. unfold call, bind, deref, lift. by rewrite Hk, Hm.
Qed.

Lemma call_raise r m k e w :
  heap w !! r = Some k -> m k = Raise e ->
  call r m w = (Raise e, w).
Proof.
  intros Hk Hm. unfold call, bind, deref, lift. by rewrite Hk, Hm.
Qed.

Lemma self_kf_ok r w : kf (self w) = Some r -> self_kf w = (Ok r, w).
Proof. intros Hr. unfold self_kf, bind, get_kf. by rewrite Hr. Qed.

Lemma for_range_run n : forall i values filtered w r k p,
  kf (self w) = Some r ->
  heap w !! r = Some k ->
  params (self w) = Some p ->
  (i + n <= length (np.rows values))%nat ->
  (i + n <= length (np.rows filtered))%nat ->
  for_range (seq i n) values filtered w =
    match run (dim_x p) k (take n (drop i (np.rows values))) with
    | (Ok outs, k') =>
        (Ok (np.mk_ndarray
               (take i (np.rows filtered) ++ outs
                  ++ drop (i + n) (np.rows filtered))
               (np.ncols filtered)),
         store r k' w)
    | (Raise e, k') => (Raise e, store r k' w)
    end.
Proof.
  induction n as [|n IH]; intros i values filtered w r k p Hr Hk Hp Hv Hf.
  - simpl. rewrite Nat.add_0_r, take_drop, (store_id _ _ _ Hk).
    by destruct filtered.
  - destruct (lookup_lt_is_Some_2 (np.rows values) i) as [obs Hobs]; [lia|].
    rewrite (drop_S _ _ _ Hobs). simpl.
    unfold bind at 1. unfold lift at 1, row. rewrite Hobs.
    unfold bind at 1. rewrite (self_kf_ok _ _ Hr).
    unfold bind at 1.
    destruct (FpKalmanFilter.predict k) as [k1|e] eqn:Hpred.
    2:{ rewrite (call_raise _ _ _ _ _ Hk Hpred).
        by rewrite (store_id _ _ _ Hk). }
    rewrite (call_ok _ _ _ _ _ Hk Hpred).
    assert (Hk1 : heap (store r k1 w) !! r = Some k1)
      by (by eapply store_lookup).
    unfold bind at 1. rewrite (self_kf_ok r (store r k1 w) Hr).
    unfold bind at 1.
    destruct (FpKalmanFilter.update obs k1) as [k2|e] eqn:Hupd.
    2:{ by rewrite (call_raise _ _ _ _ _ Hk1 Hupd). }
    rewrite (call_ok _ _ _ _ _ Hk1 Hupd), store_store.
    assert (Hk2 : heap (store r k2 w) !! r = Some k2)
      by (by eapply store_lookup).
    unfold bind at 1. rewrite (self_kf_ok r (store r k2 w) Hr).
    unfold bind at 1. unfold deref at 1. rewrite Hk2.
    unfold bind at 1. unfold getattr at 1.
    change (params (self (store r k2 w))) with (params (self w)).
    rewrite Hp.
    unfold bind at 1. unfold lift at 1.
    destruct (np.reshape (FpKalmanFilter.x k2) (dim_x p)) as [x'|e]; [|done].
    rewrite (IH (S i) values (set_row filtered i x') (store r k2 w) r k2 p);
      [|done|done|done|lia|simpl; rewrite length_insert; lia].
    destruct (run (dim_x p) k2 (take n (drop (S i) (np.rows values))))
      as [[outs|e] k'].
    + rewrite store_store. simpl. do 2 f_equal.
      rewrite Nat.add_succ_r.
      rewrite (take_S_r _ _ x'), <- app_assoc; simpl.
      * rewrite take_insert_ge by lia. f_equal. f_equal. f_equal.
        rewrite drop_insert_lt by lia. done.
      * apply list_lookup_insert_eq. lia.
    + by rewrite store_store.
Qed.

End Loop.

(** ** One call of [filter], on a cached and on a fresh model *)

Section Call.

Import KalmanFilter.

Variable base_accepts : TimeSeries.t -> bool.

Lemma zeros2_rows (n : nat) (dx : Z) :
  np.zeros2 (Z.of_nat n) dx =
    if dx <? 0 then Raise (ValueError np.negative_dims)
    else Ok (np.mk_ndarray (replicate n (replicate (Z.to_nat dx) 0%Qc))
               (Z.to_nat dx)).
Proof.
  unfold np.zeros2, np.full2.
  replace (Z.of_nat n <? 0) with false by (symmetry; apply Z.ltb_ge; lia).
  simpl. destruct (dx <? 0); [done|]. by rewrite Nat2Z.id.
Qed.

Lemma filter_cached s w r k :
  kf (self w) = Some r ->
  heap w !! r = Some k ->
  filter base_accepts s w = cached_call base_accepts s r k w.
Proof.
  intros Hr Hk. unfold filter, cached_call.
  unfold bind at 1. unfold get_kf at 1. rewrite Hr.
  unfold bind at 1. unfold bind at 1. unfold deref at 1. rewrite Hk.
  unfold raise_if_not.
  destruct (Z.of_nat (TimeSeries.width s) =? FpKalmanFilter.dim_z k);
    [|done].
  unfold ret at 1. unfold bind at 1. unfold super_filter.
  destruct (base_accepts s); [|done].
  unfold ret at 1. unfold bind at 1. unfold getattr at 1.
  destruct (params (self w)) as [p|] eqn:Hp; [|done].
  unfold bind at 1. unfold lift at 1, len, np.nrows.
  rewrite zeros2_rows.
  destruct (dim_x p <? 0); [done|].
  unfold bind at 1.
  rewrite (for_range_run _ 0 _ _ w r k p); try done.
  2:{ simpl. by rewrite length_replicate. }
  rewrite drop_0, firstn_all. simpl.
  rewrite drop_ge by (by rewrite length_replicate).
  destruct (run (dim_x p) k (np.rows (TimeSeries.values s)))
    as [[outs|e] k']; [|done].
  unfold ret. by rewrite app_nil_r.
Qed.

Lemma alter_last {A} (f : A -> A) (l : list A) (a : A) :
  alter f (length l) (l ++ [a]) = l ++ [f a].
Proof.
  rewrite <- (Nat.add_0_r (length l)). by rewrite alter_app_r.
Qed.

Lemma filter_fresh s w p :
  kf (self w) = None ->
  params (self w) = Some p ->
  filter base_accepts s w =
    if dim_x p <? 0 then (Raise (ValueError np.negative_dims), w)
    else filter base_accepts s (cached p (TimeSeries.width s) w).
Proof.
  intros Hr Hp. destruct w as [h [ps o]]. simpl in Hr, Hp. subst ps o.
  unfold filter at 2.
  unfold filter, cached.
  unfold bind at 1. unfold get_kf at 1. simpl kf. cbv iota.
  unfold bind at 1. unfold bind at 1. unfold getattr at 1.
  simpl params. cbv iota.
  unfold bind at 1. unfold lift at 1.
  assert (Hw0 : (Z.of_nat (TimeSeries.width s) <? 0) = false)
    by (apply Z.ltb_ge; lia).
  unfold FpKalmanFilter.__init__, np.zeros, np.eye, np.zeros2, np.full2.
  rewrite Hw0.
  destruct (dim_x p <? 0) eqn:Hdx; [done|].
  cbn [rbind orb].
  cbv [bind new getattr assign lift set_kf get_kf deref raise_if_not ret
       self heap params kf np.eye np.ones2 np.full2].
  unfold built.
  destruct (R p), (H p); cbv iota; rewrite ?Hw0, ?Hdx; cbn [orb];
    rewrite list_lookup_middle by done;
    cbn [FpKalmanFilter.dim_z]; rewrite Z.eqb_refl;
    by rewrite !alter_last, ?Nat2Z.id.
Qed.

Lemma filter_unset s w :
  kf (self w) = None ->
  params (self w) = None ->
  filter base_accepts s w = (Raise (AttributeError "dim_x"), w).
Proof.
  intros Hr Hp. unfold filter.
  unfold bind at 1. unfold get_kf at 1. rewrite Hr.
  unfold bind at 1. unfold bind at 1. unfold getattr at 1.
  by rewrite Hp.
Qed.

Lemma filter_dangling s w r :
  kf (self w) = Some r ->
  heap w !! r = None ->
  filter base_accepts s w = (Raise (AttributeError "kf"), w).
Proof.
  intros Hr Hk. unfold filter.
  unfold bind at 1. unfold get_kf at 1. rewrite Hr.
  unfold bind at 1. unfold bind at 1. unfold deref at 1.
  by rewrite Hk.
Qed.

End Call.

(** ** Facts about the pure account *)

Section Run.

Lemma run_app dx k obss1 obss2 :
  run dx k (obss1 ++ obss2) =
    match run dx k obss1 with
    | (Ok outs1, k1) =>
        match run dx k1 obss2 with
        | (Ok outs2, k2) => (Ok (outs1 ++ outs2), k2)
        | (Raise e, k2) => (Raise e, k2)
        end
    | (Raise e, k1) => (Raise e, k1)
    end.
Proof.
  revert k. induction obss1 as [|obs obss1 IH]; intros k; simpl.
  - by destruct (run dx k obss2) as [[outs|e] k2].
  - destruct (FpKalmanFilter.predict k) as [k1|e]; [|done].
    destruct (FpKalmanFilter.update obs k1) as [k2|e]; [|done].
    destruct (np.reshape (FpKalmanFilter.x k2) dx) as [r|e]; [|done].
    rewrite IH.
    destruct (run dx k2 obss1) as [[outs1|e] k3]; [|done].
    by destruct (run dx k3 obss2) as [[outs2|e] k4].
Qed.

Lemma run_length dx k obss outs k' :
  run dx k obss = (Ok outs, k') -> length outs = length obss.
Proof.
  revert k outs. induction obss as [|obs obss IH]; intros k outs; simpl.
  - by intros [= <- _].
  - destruct (FpKalmanFilter.predict k) as [k1|e]; [|done].
    destruct (FpKalmanFilter.update obs k1) as [k2|e]; [|done].
    destruct (np.reshape (FpKalmanFilter.x k2) dx) as [r|e]; [|done].
    destruct (run dx k2 obss) as [[outs'|e] k3] eqn:Hrun; [|done].
    intros [= <- <-]. simpl. f_equal. by eapply IH.
Qed.

Lemma run_steps dx k obss outs k' :
  run dx k obss = (Ok outs, k') -> steps k obss = Ok k'.
Proof.
  revert k outs. induction obss as [|obs obss IH]; intros k outs; simpl.
  - by intros [= _ <-].
  - unfold step.
    destruct (FpKalmanFilter.predict k) as [k1|e]; [|done]. simpl.
    destruct (FpKalmanFilter.update obs k1) as [k2|e]; [|done]. simpl.
    destruct (np.reshape (FpKalmanFilter.x k2) dx) as [r|e]; [|done].
    destruct (run dx k2 obss) as [[outs'|e] k3] eqn:Hrun; [|done].
    intros [= _ <-]. by eapply IH.
Qed.

(** The [i]-th recorded row is the mean left by predict and update on the
    [i]-th observation, from the object left by the [i] observations
    before it. *)
Lemma run_nth dx k obss outs k' i obs :
  run dx k obss = (Ok outs, k') ->
  obss !! i = Some obs ->
  exists k_i k_pred k_post,
    steps k (take i obss) = Ok k_i /\
    FpKalmanFilter.predict k_i = Ok k_pred /\
    FpKalmanFilter.update obs k_pred = Ok k_post /\
    outs !! i = Some (FpKalmanFilter.x k_post).
Proof.
  revert k outs i.
  induction obss as [|obs0 obss IH]; intros k outs i; simpl; [done|].
  destruct (FpKalmanFilter.predict k) as [k1|e] eqn:Hp; [|done].
  destruct (FpKalmanFilter.update obs0 k1) as [k2|e] eqn:Hu; [|done].
  destruct (np.reshape (FpKalmanFilter.x k2) dx) as [r|e] eqn:Hr; [|done].
  destruct (run dx k2 obss) as [[outs'|e] k3] eqn:Hrun; [|done].
  intros [= <- <-] Hobs. destruct i as [|i]; simpl in *.
  - injection Hobs as ->. exists k, k1, k2. repeat split; try done.
    unfold np.reshape in Hr.
    destruct (Z.of_nat (length (FpKalmanFilter.x k2)) =? dx); [|done].
    by injection Hr as ->.
  - destruct (IH k2 outs' i Hrun Hobs) as (k_i & k_pred & k_post & H1 & H2).
    exists k_i, k_pred, k_post. split; [|done].
    unfold step. by rewrite Hp; simpl; rewrite Hu.
Qed.

Lemma same_config_refl k : same_config k k.
Proof. by repeat split. Qed.

Lemma same_config_trans k1 k2 k3 :
  same_config k1 k2 -> same_config k2 k3 -> same_config k1 k3.
Proof.
  unfold same_config. intros (?&?&?&?&?&?) (?&?&?&?&?&?).
  repeat split; congruence.
Qed.

Lemma rbind_ok {A B} (c : result A) (f : A -> result B) b :
  rbind c f = Ok b -> exists a, c = Ok a /\ f a = Ok b.
Proof. destruct c as [a|e]; simpl; [eauto|done]. Qed.

Ltac invert_binds H :=
  repeat (apply rbind_ok in H; destruct H as (? & _ & H)).

Lemma predict_config k k' :
  FpKalmanFilter.predict k = Ok k' -> same_config k k'.
Proof.
  unfold FpKalmanFilter.predict. intros H. invert_binds H.
  injection H as <-. by repeat split.
Qed.

Lemma update_config obs k k' :
  FpKalmanFilter.update obs k = Ok k' -> same_config k k'.
Proof.
  unfold FpKalmanFilter.update. intros H. invert_binds H.
  injection H as <-. by repeat split.
Qed.

Lemma run_config dx k obss : same_config k (snd (run dx k obss)).
Proof.
  revert k. induction obss as [|obs obss IH]; intros k; simpl.
  - apply same_config_refl.
  - destruct (FpKalmanFilter.predict k) as [k1|e] eqn:Hp;
      [|apply same_config_refl].
    apply predict_config in Hp.
    destruct (FpKalmanFilter.update obs k1) as [k2|e] eqn:Hu; [|done].
    apply update_config in Hu.
    assert (same_config k k2) by (by eapply same_config_trans).
    destruct (np.reshape (FpKalmanFilter.x k2) dx) as [r|e]; [|done].
    specialize (IH k2).
    destruct (run dx k2 obss) as [[outs|e] k3]; simpl in *;
      by eapply same_config_trans.
Qed.

End Run.

(** ** The exceptions of the numeric layer *)

Section Exceptions.

Ltac np_raise :=
  intros H; repeat case_match; try discriminate; by injection H as <-.

Lemma dotv_exn a v e : np.dotv a v = Raise e -> numpy_exn e.
Proof. unfold np.dotv. np_raise. Qed.

Lemma dot_exn a b e : np.dot a b = Raise e -> numpy_exn e.
Proof. unfold np.dot. np_raise. Qed.

Lemma vzip_exn op u v e : np.vzip op u v = Raise e -> numpy_exn e.
Proof. unfold np.vzip. np_raise. Qed.

Lemma zip2_exn op a b e : np.zip2 op a b = Raise e -> numpy_exn e.
Proof. unfold np.zip2. np_raise. Qed.

Lemma inv_exn a e : np.inv a = Raise e -> numpy_exn e.
Proof. unfold np.inv. np_raise. Qed.

Lemma eye_exn n e : np.eye n = Raise e -> numpy_exn e.
Proof. unfold np.eye. np_raise. Qed.

Lemma reshape_exn v n e : np.reshape v n = Raise e -> numpy_exn e.
Proof. unfold np.reshape. np_raise. Qed.

Lemma rbind_raise {A B} (c : result A) (f : A -> result B) e :
  rbind c f = Raise e -> c = Raise e \/ exists a, c = Ok a /\ f a = Raise e.
Proof. destruct c as [a|e']; simpl; [eauto|]. intros [= ->]. by left. Qed.

Ltac chain_raise H :=
  repeat (apply rbind_raise in H;
          destruct H as [H | (? & _ & H)];
          [ by eauto using dotv_exn, dot_exn, vzip_exn, zip2_exn, inv_exn,
                           eye_exn | ]);
  done.

Lemma predict_exn k e : FpKalmanFilter.predict k = Raise e -> numpy_exn e.
Proof. unfold FpKalmanFilter.predict. intros H. chain_raise H. Qed.

Lemma update_exn obs k e :
  FpKalmanFilter.update obs k = Raise e -> numpy_exn e.
Proof.
  unfold FpKalmanFilter.update, np.vsub, np.vadd, np.add, np.sub.
  intros H. chain_raise H.
Qed.

Lemma run_exn dx k obss e k' :
  run dx k obss = (Raise e, k') -> numpy_exn e.
Proof.
  revert k. induction obss as [|obs obss IH]; intros k; simpl; [done|].
  destruct (FpKalmanFilter.predict k) as [k1|e1] eqn:Hp.
  2:{ intros [= <- _]. by eapply predict_exn. }
  destruct (FpKalmanFilter.update obs k1) as [k2|e2] eqn:Hu.
  2:{ intros [= <- _]. by eapply update_exn. }
  destruct (np.reshape (FpKalmanFilter.x k2) dx) as [r|e3] eqn:Hr.
  2:{ intros [= <- _]. by eapply reshape_exn. }
  destruct (run dx k2 obss) as [[outs|e4] k3] eqn:Hrun; [done|].
  intros ?; simplify_eq. by eapply IH.
Qed.

End Exceptions.

Section Accepted.

Import KalmanFilter.

Variable base_accepts : TimeSeries.t -> bool.

(** A call returns exactly when the loop runs to its end over at least one
    observation. *)
Lemma filter_ok_iff s w out w' :
  filter base_accepts s w = (Ok out, w') <->
  exists r k p outs k',
    entry w s = Some (r, k) /\
    params (self w) = Some p /\
    0 <= dim_x p /\
    base_accepts s = true /\
    Z.of_nat (TimeSeries.width s) = FpKalmanFilter.dim_z k /\
    run (dim_x p) k (np.rows (TimeSeries.values s)) = (Ok outs, k') /\
    outs <> [] /\
    out = estimates s (dim_x p) outs /\
    w' = store r k' (prepared w s).
Proof.
  assert (Hcached : forall w r k,
    kf (self w) = Some r -> heap w !! r = Some k ->
    cached_call base_accepts s r k w = (Ok out, w') <->
    exists p outs k',
      params (self w) = Some p /\ 0 <= dim_x p /\ base_accepts s = true /\
      Z.of_nat (TimeSeries.width s) = FpKalmanFilter.dim_z k /\
      run (dim_x p) k (np.rows (TimeSeries.values s)) = (Ok outs, k') /\
      outs <> [] /\
      out = estimates s (dim_x p) outs /\ w' = store r k' w).
  { clear w. intros w r k Hr Hk. unfold cached_call. split.
    - destruct (Z.eqb_spec (Z.of_nat (TimeSeries.width s))
                  (FpKalmanFilter.dim_z k)) as [Hz|]; [|done].
      destruct (base_accepts s); [|done].
      destruct (params (self w)) as [p|]; [|done].
      destruct (Z.ltb_spec (dim_x p) 0); [done|].
      destruct (run (dim_x p) k (np.rows (TimeSeries.values s)))
        as [[outs|e] k''] eqn:Hrun; [|done].
      unfold TimeSeries.from_times_and_values. simpl.
      destruct outs as [|o outs]; [done|].
      intros [= <- <-]. by exists p, (o :: outs), k''.
    - intros (p & outs & k'' & -> & Hdx & -> & -> & -> & Hne & -> & ->).
      rewrite Z.eqb_refl.
      replace (dim_x p <? 0) with false
        by (symmetry; apply Z.ltb_ge; lia).
      unfold TimeSeries.from_times_and_values. simpl.
      by destruct outs. }
  unfold entry, prepared.
  destruct (kf (self w)) as [r|] eqn:Hr.
  - destruct (heap w !! r) as [k|] eqn:Hk.
    + rewrite (filter_cached _ s w r k Hr Hk), (Hcached w r k Hr Hk).
      split.
      * intros (p & outs & k' & ?). by exists r, k, p, outs, k'.
      * intros (r' & k0 & p & outs & k' & [= <- <-] & ?).
        by exists p, outs, k'.
    + rewrite (filter_dangling _ s w r Hr Hk). split; [done|].
      by intros (? & ? & ? & ? & ? & ? & _).
  - destruct (params (self w)) as [p|] eqn:Hp.
    + rewrite (filter_fresh _ s w p Hr Hp).
      destruct (Z.ltb_spec (dim_x p) 0) as [Hneg|Hpos].
      * split; [done|].
        intros (? & ? & p' & ? & ? & _ & [= <-] & ? & _). lia.
      * rewrite (filter_cached _ s (cached p (TimeSeries.width s) w)
                   (length (heap w)) (built p (TimeSeries.width s)));
          [|done|by apply list_lookup_middle].
        rewrite Hcached; [|done|by apply list_lookup_middle].
        split.
        -- intros (p' & outs & k' & [= <-] & ?).
           by exists (length (heap w)), (built p (TimeSeries.width s)),
                     p, outs, k'.
        -- intros (r' & k0 & p' & outs & k' & [= <- <-] & [= <-] & ?).
           by exists p, outs, k'.
    + rewrite (filter_unset _ s w Hr Hp). split; [done|].
      by intros (? & ? & ? & ? & ? & ? & _).
Qed.

End Accepted.

Section Prepared.

Import KalmanFilter.

Lemma entry_prepared w s r k :
  entry w s = Some (r, k) ->
  kf (self (prepared w s)) = Some r /\
  heap (prepared w s) !! r = Some k /\
  params (self (prepared w s)) = params (self w).
Proof.
  unfold entry, prepared.
  destruct (kf (self w)) as [r'|] eqn:Hr.
  - destruct (heap w !! r') as [k0|] eqn:Hk; [|done]. by intros [= <- <-].
  - destruct (params (self w)) as [p|] eqn:Hp; [|done].
    intros [= <- <-]. simpl. by rewrite list_lookup_middle.
Qed.

Lemma entry_store w s r k k' :
  entry w s = Some (r, k) ->
  forall s', entry (store r k' (prepared w s)) s' = Some (r, k') /\
             prepared (store r k' (prepared w s)) s' =
               store r k' (prepared w s).
Proof.
  intros He s'. destruct (entry_prepared _ _ _ _ He) as (Hr & Hk & _).
  set (W := prepared w s) in *.
  unfold entry, prepared.
  change (self (store r k' W)) with (self W).
  rewrite Hr. by rewrite (store_lookup r k' k _ Hk).
Qed.

End Prepared.

(** * The properties of [filter] and [__init__] *)

(** C1. When [filter] accepts a series, the observations are processed in
    input order: the filter object the call works on goes through one
    predict step (mean' = F·mean, covariance' = F·covariance·Fᵗ + Q) and then
    one update step (innovation, S, gain K, mean'', covariance'') per
    observation, the object before observation [i] being the one left by the
    [i] observations before it; row [i] of the output is the mean left by
    the update on observation [i], and the store ends with the object left
    by the last observation. *)
Theorem filter_sequential (base_accepts : TimeSeries.t -> bool)
    (s : TimeSeries.t) (w : KalmanFilter.world)
    (out : TimeSeries.t) (w' : KalmanFilter.world) :
  KalmanFilter.filter base_accepts s w = (Ok out, w') ->
  exists r k k',
    entry w s = Some (r, k) /\
    steps k (np.rows (TimeSeries.values s)) = Ok k' /\
    KalmanFilter.heap w' !! r = Some k' /\
    forall i obs,
      np.rows (TimeSeries.values s) !! i = Some obs ->
      exists k_i k_pred k_post,
        steps k (take i (np.rows (TimeSeries.values s))) = Ok k_i /\
        FpKalmanFilter.predict k_i = Ok k_pred /\
        FpKalmanFilter.update obs k_pred = Ok k_post /\
        np.rows (TimeSeries.values out) !! i
          = Some (FpKalmanFilter.x k_post).
Proof.
  intros Hf. apply filter_ok_iff in Hf.
  destruct Hf as (r & k & p & outs & k' & He & Hp & Hdx & Hb & Hz & Hrun
                  & Hne & -> & ->).
  exists r, k, k'. split; [done|]. split; [by eapply run_steps|]. split.
  - destruct (entry_prepared _ _ _ _ He) as (_ & Hk & _).
    by eapply store_lookup.
  - intros i obs Hobs. by eapply run_nth.
Qed.

(** C2. When [filter] accepts a series, the returned series has as many
    rows as the input, the time index of the input, and the width [dim_x] of
    the model, whatever the width of the input; every row has [dim_x]
    entries. *)
Theorem filter_shape (base_accepts : TimeSeries.t -> bool)
    (s : TimeSeries.t) (w : KalmanFilter.world)
    (out : TimeSeries.t) (w' : KalmanFilter.world) :
  KalmanFilter.filter base_accepts s w = (Ok out, w') ->
  len (TimeSeries.values out) = len (TimeSeries.values s) /\
  TimeSeries.time_index out = TimeSeries.time_index s /\
  exists p,
    KalmanFilter.params (KalmanFilter.self w) = Some p /\
    Z.of_nat (TimeSeries.width out) = KalmanFilter.dim_x p /\
    Forall (fun row => Z.of_nat (length row) = KalmanFilter.dim_x p)
      (np.rows (TimeSeries.values out)).
Proof.
  intros Hf. apply filter_ok_iff in Hf.
  destruct Hf as (r & k & p & outs & k' & He & Hp & Hdx & Hb & Hz & Hrun
                  & Hne & -> & ->).
  split; [by eapply run_length|]. split; [done|].
  exists p. split; [done|]. split.
  - unfold TimeSeries.width. simpl. lia.
  - simpl. clear -Hrun. revert k k' outs Hrun.
    induction (np.rows (TimeSeries.values s)) as [|obs obss IH];
      intros k k' outs; simpl.
    + intros [= <- _]. constructor.
    + destruct (FpKalmanFilter.predict k) as [k1|e]; [|done].
      destruct (FpKalmanFilter.update obs k1) as [k2|e]; [|done].
      unfold np.reshape.
      destruct (Z.eqb_spec (Z.of_nat (length (FpKalmanFilter.x k2)))
                  (KalmanFilter.dim_x p)); [|done].
      destruct (run (KalmanFilter.dim_x p) k2 obss) as [[outs'|e'] k3] eqn:Hr;
        [|done].
      intros [= <- _]. constructor; [done|]. by eapply IH.
Qed.

(** C3. Filtering a first series and then a second one of the same width on
    the same model leaves the world (the filter object with its mean and
    covariance, and the model) that one call on the concatenation of the two
    series leaves, and the two outputs concatenated are the output of that
    one call. *)
Theorem filter_concat (base_accepts : TimeSeries.t -> bool)
    (s1 s2 : TimeSeries.t) (w0 w1 w2 : KalmanFilter.world)
    (o1 o2 : TimeSeries.t) :
  TimeSeries.width s1 = TimeSeries.width s2 ->
  KalmanFilter.filter base_accepts s1 w0 = (Ok o1, w1) ->
  KalmanFilter.filter base_accepts s2 w1 = (Ok o2, w2) ->
  base_accepts (concat s1 s2) = true ->
  KalmanFilter.filter base_accepts (concat s1 s2) w0
    = (Ok (concat o1 o2), w2).
Proof.
  intros Hw H1 H2 Hb.
  apply filter_ok_iff in H1.
  destruct H1 as (r & k & p & outs1 & k1 & He & Hp & Hdx & _ & Hz & Hrun1
                  & Hne1 & -> & ->).
  apply filter_ok_iff in H2.
  destruct H2 as (r2 & k1' & p2 & outs2 & k2 & He2 & Hp2 & _ & _ & _ & Hrun2
                  & Hne2 & -> & ->).
  destruct (entry_store w0 s1 r k k1 He s2) as (He2' & Hprep).
  rewrite He2' in He2. injection He2 as <- <-. rewrite Hprep.
  destruct (entry_prepared _ _ _ _ He) as (_ & _ & Hpp).
  change (KalmanFilter.self (store r k1 (prepared w0 s1)))
    with (KalmanFilter.self (prepared w0 s1)) in Hp2.
  rewrite Hpp, Hp in Hp2. injection Hp2 as <-.
  apply filter_ok_iff.
  exists r, k, p, (outs1 ++ outs2), k2.
  repeat split; try done.
  - unfold TimeSeries.values in *. simpl. by rewrite run_app, Hrun1, Hrun2.
  - by destruct outs1.
  - by rewrite store_store.
Qed.

Section Mismatch.

Import KalmanFilter.

Variable base_accepts : TimeSeries.t -> bool.

(** A call on a cached model raises the validation error only from the
    width check, and then leaves the world as it was. *)
Lemma cached_call_validation s r k w msg w' :
  cached_call base_accepts s r k w = (Raise (ValidationError msg), w') ->
  Z.of_nat (TimeSeries.width s) <> FpKalmanFilter.dim_z k /\
  msg = dim_z_message /\ w' = w.
Proof.
  unfold cached_call.
  destruct (Z.eqb_spec (Z.of_nat (TimeSeries.width s))
              (FpKalmanFilter.dim_z k)) as [Hz|Hz].
  - destruct (base_accepts s); [|done].
    destruct (params (self w)) as [p|]; [|done].
    destruct (dim_x p <? 0); [done|].
    destruct (run (dim_x p) k (np.rows (TimeSeries.values s)))
      as [[outs|e] k''] eqn:Hrun.
    + unfold TimeSeries.from_times_and_values. simpl. by destruct outs.
    + intros [= -> _]. by apply run_exn in Hrun.
  - by intros [= <- <-].
Qed.

End Mismatch.

(** C4. Once the model holds a filter object, a call on a series whose width
    differs from the object's [dim_z] raises the validation error of the
    width check, and a call on a series of width [dim_z] never raises a
    validation error. *)
Theorem filter_dimension_check (base_accepts : TimeSeries.t -> bool)
    (s : TimeSeries.t) (w : KalmanFilter.world)
    (r : loc) (k : FpKalmanFilter.t) :
  KalmanFilter.kf (KalmanFilter.self w) = Some r ->
  KalmanFilter.heap w !! r = Some k ->
  (Z.of_nat (TimeSeries.width s) <> FpKalmanFilter.dim_z k ->
   fst (KalmanFilter.filter base_accepts s w)
     = Raise (ValidationError KalmanFilter.dim_z_message)) /\
  (Z.of_nat (TimeSeries.width s) = FpKalmanFilter.dim_z k ->
   forall msg,
     fst (KalmanFilter.filter base_accepts s w)
       <> Raise (ValidationError msg)).
Proof.
  intros Hr Hk. rewrite (filter_cached _ s w r k Hr Hk). split.
  - intros Hz. unfold cached_call.
    by destruct (Z.eqb_spec (Z.of_nat (TimeSeries.width s))
                   (FpKalmanFilter.dim_z k)).
  - intros Hz msg Hraise.
    destruct (cached_call base_accepts s r k w) as [res w'] eqn:Hc.
    simpl in Hraise. subst res.
    by apply cached_call_validation in Hc as (Hne & _).
Qed.

(** C9, as the code has it.  Once the model holds a filter object, a call
    that fails with the validation error of the width check leaves the
    world, and so the mean and covariance of the filter object, as they
    were; a call that returns has processed every observation of its input.
    Nothing is said of a call that raises inside the loop. *)
Theorem filter_mismatch_untouched (base_accepts : TimeSeries.t -> bool)
    (s : TimeSeries.t) (w : KalmanFilter.world)
    (r : loc) (k : FpKalmanFilter.t) :
  KalmanFilter.kf (KalmanFilter.self w) = Some r ->
  KalmanFilter.heap w !! r = Some k ->
  (forall msg w',
     KalmanFilter.filter base_accepts s w
       = (Raise (ValidationError msg), w') ->
     w' = w /\ KalmanFilter.heap w' !! r = Some k) /\
  (forall out w',
     KalmanFilter.filter base_accepts s w = (Ok out, w') ->
     exists k',
       steps k (np.rows (TimeSeries.values s)) = Ok k' /\
       KalmanFilter.heap w' !! r = Some k').
Proof.
  intros Hr Hk. split.
  - intros msg w'. rewrite (filter_cached _ s w r k Hr Hk).
    intros Hc. by apply cached_call_validation in Hc as (_ & _ & ->).
  - intros out w' Hf. apply filter_ok_iff in Hf.
    destruct Hf as (r' & k0 & p & outs & k' & He & _ & _ & _ & _ & Hrun
                    & _ & _ & ->).
    destruct (entry_prepared _ _ _ _ He) as (_ & Hk' & _).
    unfold entry in He. rewrite Hr, Hk in He. injection He as <- <-.
    exists k'. split; [by eapply run_steps|by eapply store_lookup].
Qed.

(** C9, as stated, fails: the call is not all-or-nothing.  On the noise-free
    scalar model holding its filter object, the call on 5, 5, 5 raises on the
    second observation, whose innovation covariance is 0, and leaves the
    filter object with the mean 5 and the covariance 0 of the first
    observation in place of the mean 0 and the covariance 1 it had. *)
Lemma filter_not_all_or_nothing :
  KalmanFilter.filter always (fives [0; 1; 2])
    (noiseless_holding (noiseless_kf (qc 0 1) (qc 1 1)))
    = (Raise (LinAlgError np.singular),
       noiseless_holding (noiseless_kf (qc 5 1) (qc 0 1))) /\
  noiseless_holding (noiseless_kf (qc 5 1) (qc 0 1))
    <> noiseless_holding (noiseless_kf (qc 0 1) (qc 1 1)) /\
  steps (noiseless_kf (qc 0 1) (qc 1 1))
    (np.rows (TimeSeries.values (fives [0; 1; 2])))
    = Raise (LinAlgError np.singular).
Proof.
  split; [qc_eval|]. split; [|vm_compute; reflexivity].
  intros Heq. discriminate Heq.
Qed.



Section Cache.

Import KalmanFilter.

Variable base_accepts : TimeSeries.t -> bool.

Lemma holds_filter r p k0 h s w :
  r = length h ->
  holds r p k0 h w ->
  holds r p k0 h (snd (filter base_accepts s w)).
Proof.
  intros -> (Hr & Hp & Hlen & Htake & k & Hk & Hcfg).
  rewrite (filter_cached _ s w _ k Hr Hk). unfold cached_call.
  assert (Hw : holds (length h) p k0 h w) by (by repeat split; eauto).
  destruct (_ =? _); [|done].
  destruct (base_accepts s); [|done].
  rewrite Hp. destruct (dim_x p <? 0); [done|].
  pose proof (run_config (dim_x p) k (np.rows (TimeSeries.values s)))
    as Hrun.
  assert (Hs : forall k', same_config k k' ->
               holds (length h) p k0 h (store (length h) k' w)).
  { intros k' Hk'. repeat split; simpl; try done.
    - by rewrite length_insert.
    - by rewrite take_insert_ge.
    - exists k'. split; [by eapply store_lookup|].
      by eapply same_config_trans. }
  destruct (run (dim_x p) k (np.rows (TimeSeries.values s)))
    as [[outs|e] k']; simpl in *; by apply Hs.
Qed.

Lemma holds_filter_all r p k0 h calls : forall w,
  r = length h ->
  holds r p k0 h w ->
  holds r p k0 h (filter_all base_accepts calls w).
Proof.
  induction calls as [|s calls IH]; intros w Hr Hw; simpl; [done|].
  apply IH; [done|]. by apply holds_filter.
Qed.

End Cache.

(** C8. On a model built from parameters with a positive [dim_x], the
    first call builds one filter object, with [dim_z] the width of its input,
    mean [x_init], covariance [P], process noise [Q], measurement noise [R]
    (the identity of size [dim_z] if unset), observation map [H] (all ones,
    [dim_z] by [dim_x], if unset) and transition [F], and goes on as a call
    on the model that holds it; after any number of further calls the store
    has grown by that one object only, [self.kf] still refers to it, and its
    configuration is the one it was built with. *)
Theorem filter_builds_once (base_accepts : TimeSeries.t -> bool)
    (s : TimeSeries.t) (w : KalmanFilter.world) (p : KalmanFilter.attrs) :
  KalmanFilter.kf (KalmanFilter.self w) = None ->
  KalmanFilter.params (KalmanFilter.self w) = Some p ->
  0 < KalmanFilter.dim_x p ->
  let r := length (KalmanFilter.heap w) in
  let k0 :=
    FpKalmanFilter.mk (KalmanFilter.dim_x p) (Z.of_nat (TimeSeries.width s))
      (KalmanFilter.x_init p) (KalmanFilter.P p) (KalmanFilter.Q p)
      (default (np.identity (TimeSeries.width s)) (KalmanFilter.R p))
      (default
         (np.mk_ndarray
            (replicate (TimeSeries.width s)
               (replicate (Z.to_nat (KalmanFilter.dim_x p)) 1%Qc))
            (Z.to_nat (KalmanFilter.dim_x p)))
         (KalmanFilter.H p))
      (KalmanFilter.F p) in
  KalmanFilter.filter base_accepts s w
    = KalmanFilter.filter base_accepts s
        (KalmanFilter.mk_world (KalmanFilter.heap w ++ [k0])
           (KalmanFilter.mk (Some p) (Some r))) /\
  forall later,
    let w' := filter_all base_accepts (s :: later) w in
    KalmanFilter.kf (KalmanFilter.self w') = Some r /\
    length (KalmanFilter.heap w') = S (length (KalmanFilter.heap w)) /\
    take r (KalmanFilter.heap w') = KalmanFilter.heap w /\
    exists k, KalmanFilter.heap w' !! r = Some k /\ same_config k0 k.
Proof.
  intros Hr Hp Hdx r k0.
  assert (Hk0 : k0 = built p (TimeSeries.width s)).
  { unfold k0, built. by destruct (KalmanFilter.R p), (KalmanFilter.H p). }
  assert (Hfresh : KalmanFilter.filter base_accepts s w
                   = KalmanFilter.filter base_accepts s
                       (cached p (TimeSeries.width s) w)).
  { rewrite (filter_fresh _ s w p Hr Hp).
    by replace (KalmanFilter.dim_x p <? 0) with false
      by (symmetry; apply Z.ltb_ge; lia). }
  rewrite Hk0. split; [done|].
  intros later w'. unfold w'. simpl. rewrite Hfresh.
  assert (Hheld : holds r p (built p (TimeSeries.width s))
                    (KalmanFilter.heap w)
                    (cached p (TimeSeries.width s) w)).
  { repeat split; simpl.
    - rewrite length_app. simpl. lia.
    - by rewrite take_app_length.
    - exists (built p (TimeSeries.width s)).
      split; [by apply list_lookup_middle|apply same_config_refl]. }
  pose proof (holds_filter_all base_accepts r p _ _ later _ eq_refl
                (holds_filter base_accepts r p _ _ s _ eq_refl Hheld))
    as (H1 & _ & H3 & H4 & H5).
  done.
Qed.

(** ** Construction *)

(** C6, as the code has it.  [__init__] does not inspect [dim_x]: for a
    [dim_x] that is zero or negative, building from parameters returns the
    model when [dim_x] is zero, and when it is negative and [x_init], [P],
    [Q] and [F] are all given; it fails only when a negative [dim_x] meets
    one of them left unset, and then with numpy's error for a negative
    size. *)
Theorem init_nonpositive_dim_x (dim_x : Z) (x_init : option np.vector)
    (P Q R H F : option np.ndarray) :
  dim_x <= 0 ->
  ((exists m, KalmanFilter.__init__ dim_x x_init P Q R H F None = Ok m) <->
   (dim_x = 0 \/
    (is_Some x_init /\ is_Some P /\ is_Some Q /\ is_Some F))) /\
  (forall e,
     KalmanFilter.__init__ dim_x x_init P Q R H F None = Raise e ->
     e = ValueError np.negative_dims).
Proof.
  intros Hdx.
  unfold KalmanFilter.__init__, KalmanFilter.or_else, np.zeros, np.eye.
  destruct (Z.ltb_spec dim_x 0) as [Hneg|Hpos].
  - split.
    + split.
      * intros [m Hm]. right.
        destruct x_init, P, Q, F; simpl in Hm; try done; by repeat split.
      * intros [?|([? ->] & [? ->] & [? ->] & [? ->])]; [lia|].
        simpl. eauto.
    + intros e. by destruct x_init, P, Q, F; simpl; intros [= <-].
  - split.
    + split; [intros _; left; lia|]. intros _.
      destruct x_init, P, Q, F; simpl; eauto.
    + intros e. by destruct x_init, P, Q, F.
Qed.

(** C6, as stated, fails: [dim_x = 0] with every default, and [dim_x = -1]
    with the four arrays given, both build a model. *)
Lemma init_accepts_nonpositive_dim_x :
  (exists m,
     KalmanFilter.__init__ 0 None None None None None None None = Ok m) /\
  (exists m,
     KalmanFilter.__init__ (-1) (Some []) (Some (np.array []))
       (Some (np.array [])) None None (Some (np.array [])) None = Ok m).
Proof. split; eexists; reflexivity. Qed.

Lemma scalar_init :
  KalmanFilter.__init__ 1 (Some [qc 0 1]) (Some (scalar (qc 1 1)))
    (Some (scalar (qc 1 1))) (Some (scalar (qc 1 1)))
    (Some (scalar (qc 1 1))) (Some (scalar (qc 1 1))) None
  = Ok scalar_model.
Proof. reflexivity. Qed.

(** The defaults of [__init__] and of the first call give the same model
    and the same filter object. *)
Lemma scalar_defaults :
  KalmanFilter.__init__ 1 None None None (Some (scalar (qc 1 1))) None None
    None
  = Ok (KalmanFilter.mk
          (Some (KalmanFilter.mk_attrs 1 [qc 0 1] (scalar (qc 1 1))
                   (scalar (qc 1 1)) (Some (scalar (qc 1 1))) None
                   (scalar (qc 1 1))))
          None).
Proof. reflexivity. Qed.

Lemma scalar_run :
  run 1 (built scalar_params 1) [[qc 5 1]; [qc 5 1]; [qc 5 1]]
  = (Ok [[qc 10 3]; [qc 35 8]; [qc 100 21]],
     scalar_kf (qc 100 21) (qc 13 21)).
Proof. qc_eval. Qed.

Lemma scalar_filter (base_accepts : TimeSeries.t -> bool)
    (h : list FpKalmanFilter.t) (t0 t1 t2 : Z) :
  base_accepts (fives [t0; t1; t2]) = true ->
  KalmanFilter.filter base_accepts (fives [t0; t1; t2])
    (KalmanFilter.mk_world h scalar_model)
  = (Ok (TimeSeries.mk [t0; t1; t2]
           (np.mk_ndarray [[qc 10 3]; [qc 35 8]; [qc 100 21]] 1)),
     KalmanFilter.mk_world (h ++ [scalar_kf (qc 100 21) (qc 13 21)])
       (KalmanFilter.mk (Some scalar_params) (Some (length h)))).
Proof.
  intros Hb. apply filter_ok_iff.
  exists (length h), (built scalar_params 1), scalar_params,
         [[qc 10 3]; [qc 35 8]; [qc 100 21]],
         (scalar_kf (qc 100 21) (qc 13 21)).
  repeat split; try done.
  - apply scalar_run.
  - unfold prepared, store, cached. simpl. f_equal.
    rewrite <- (Nat.add_0_r (length h)). by rewrite insert_app_r.
Qed.

(** C5, as the code has it.  In the scalar scenario the three outputs are
    exactly 10/3, 35/8 and 100/21: they increase towards 5 and stay below
    it, and the first one is about 3.33. *)
Theorem scalar_scenario (base_accepts : TimeSeries.t -> bool)
    (h : list FpKalmanFilter.t) (t0 t1 t2 : Z) :
  base_accepts (fives [t0; t1; t2]) = true ->
  exists out w',
    KalmanFilter.filter base_accepts (fives [t0; t1; t2])
      (KalmanFilter.mk_world h scalar_model) = (Ok out, w') /\
    TimeSeries.time_index out = [t0; t1; t2] /\
    np.rows (TimeSeries.values out)
      = [[qc 10 3]; [qc 35 8]; [qc 100 21]] /\
    (qc 333 100 < qc 10 3)%Qc /\ (qc 10 3 < qc 334 100)%Qc /\
    (qc 10 3 < qc 35 8)%Qc /\ (qc 35 8 < qc 100 21)%Qc /\
    (qc 100 21 < qc 5 1)%Qc.
Proof.
  intros Hb. eexists _, _. split; [by apply scalar_filter|].
  repeat split.
Qed.

(** C5, as stated, fails: the first output is 10/3, which is not within
    one half of 2.5. *)
Lemma scalar_first_output_not_2_5 :
  exists out w' v,
    KalmanFilter.filter always (fives [0; 1; 2]) scalar_world
      = (Ok out, w') /\
    np.rows (TimeSeries.values out) !! O = Some [v] /\
    v = qc 10 3 /\
    ~ (qc 2 1 <= v /\ v <= qc 3 1)%Qc.
Proof.
  eexists _, _, (qc 10 3). split; [by apply (scalar_filter always [])|].
  split; [done|]. split; [done|].
  intros [_ Hle]. by apply Hle.
Qed.

(** ** A model built around a supplied filter object *)

Section Prebuilt.

Import KalmanFilter.

Variable base_accepts : TimeSeries.t -> bool.

(** [__init__] with [kf] given sets [self.kf] and nothing else. *)
Lemma init_prebuilt dx xi P0 Q0 R0 H0 F0 r :
  __init__ dx xi P0 Q0 R0 H0 F0 (Some r) = Ok (mk None (Some r)).
Proof. reflexivity. Qed.

(** On such a model a call that passes the width check and the base class
    stops at [self.dim_x], before the loop. *)
Lemma prebuilt_filter s w r k :
  self w = mk None (Some r) ->
  heap w !! r = Some k ->
  Z.of_nat (TimeSeries.width s) = FpKalmanFilter.dim_z k ->
  base_accepts s = true ->
  filter base_accepts s w = (Raise (AttributeError "dim_x"), w).
Proof.
  intros Hs Hk Hz Hb.
  rewrite (filter_cached _ s w r k); [|by rewrite Hs|done].
  unfold cached_call. by rewrite Hz, Z.eqb_refl, Hb, Hs.
Qed.

(** No call on such a model returns. *)
Lemma prebuilt_never_returns s w r out w' :
  self w = mk None (Some r) ->
  filter base_accepts s w <> (Ok out, w').
Proof.
  intros Hs Hf. apply filter_ok_iff in Hf.
  destruct Hf as (? & ? & p & ? & ? & _ & Hp & _).
  by rewrite Hs in Hp.
Qed.

End Prebuilt.

(** C7, on the code.  A model built around a supplied one-dimensional filter
    object, given one observation of the width the object expects, does not
    filter it: the call raises [AttributeError] on [self.dim_x], which
    [__init__] never assigned on this branch, and leaves the object as it
    was. *)
Theorem prebuilt_filter_raises :
  KalmanFilter.__init__ 1 None None None None None None (Some O)
    = Ok (KalmanFilter.mk None (Some O)) /\
  KalmanFilter.filter always (fives [0])
    (KalmanFilter.mk_world [scalar_kf (qc 0 1) (qc 1 1)]
       (KalmanFilter.mk None (Some O)))
  = (Raise (AttributeError "dim_x"),
     KalmanFilter.mk_world [scalar_kf (qc 0 1) (qc 1 1)]
       (KalmanFilter.mk None (Some O))).
Proof.
  split; [reflexivity|].
  by apply prebuilt_filter with (r := O) (k := scalar_kf (qc 0 1) (qc 1 1)).
Qed.

(** ** The theorems at concrete inputs *)

(** [filter_sequential] on the scalar scenario. *)
Lemma filter_sequential_witness :
  KalmanFilter.filter always (fives [0; 1; 2]) scalar_world
    = (Ok three_estimates,
       scalar_holding (scalar_kf (qc 100 21) (qc 13 21))) /\
  exists r k k',
    entry scalar_world (fives [0; 1; 2]) = Some (r, k) /\
    steps k (np.rows (TimeSeries.values (fives [0; 1; 2]))) = Ok k' /\
    KalmanFilter.heap (scalar_holding (scalar_kf (qc 100 21) (qc 13 21)))
      !! r = Some k' /\
    forall i obs,
      np.rows (TimeSeries.values (fives [0; 1; 2])) !! i = Some obs ->
      exists k_i k_pred k_post,
        steps k (take i (np.rows (TimeSeries.values (fives [0; 1; 2]))))
          = Ok k_i /\
        FpKalmanFilter.predict k_i = Ok k_pred /\
        FpKalmanFilter.update obs k_pred = Ok k_post /\
        np.rows (TimeSeries.values three_estimates) !! i
          = Some (FpKalmanFilter.x k_post).
Proof.
  assert (Hf : KalmanFilter.filter always (fives [0; 1; 2]) scalar_world
               = (Ok three_estimates,
                  scalar_holding (scalar_kf (qc 100 21) (qc 13 21))))
    by qc_eval.
  split; [exact Hf|].
  exact (filter_sequential always (fives [0; 1; 2]) scalar_world
           three_estimates _ Hf).
Defined.

(** [filter_shape] on the scalar scenario. *)
Lemma filter_shape_witness :
  KalmanFilter.filter always (fives [0; 1; 2]) scalar_world
    = (Ok three_estimates,
       scalar_holding (scalar_kf (qc 100 21) (qc 13 21))) /\
  len (TimeSeries.values three_estimates)
    = len (TimeSeries.values (fives [0; 1; 2])) /\
  TimeSeries.time_index three_estimates
    = TimeSeries.time_index (fives [0; 1; 2]) /\
  exists p,
    KalmanFilter.params (KalmanFilter.self scalar_world) = Some p /\
    Z.of_nat (TimeSeries.width three_estimates) = KalmanFilter.dim_x p /\
    Forall (fun row => Z.of_nat (length row) = KalmanFilter.dim_x p)
      (np.rows (TimeSeries.values three_estimates)).
Proof.
  assert (Hf : KalmanFilter.filter always (fives [0; 1; 2]) scalar_world
               = (Ok three_estimates,
                  scalar_holding (scalar_kf (qc 100 21) (qc 13 21))))
    by qc_eval.
  split; [exact Hf|].
  exact (filter_shape always (fives [0; 1; 2]) scalar_world
           three_estimates _ Hf).
Defined.

(** [filter_concat] on the scalar scenario continued to six observations,
    split in the middle. *)
Lemma filter_concat_witness :
  TimeSeries.width (fives [0; 1; 2]) = TimeSeries.width (fives [3; 4; 5]) /\
  KalmanFilter.filter always (fives [0; 1; 2]) scalar_world
    = (Ok three_estimates,
       scalar_holding (scalar_kf (qc 100 21) (qc 13 21))) /\
  KalmanFilter.filter always (fives [3; 4; 5])
    (scalar_holding (scalar_kf (qc 100 21) (qc 13 21)))
    = (Ok later_estimates, scalar_holding six_kf) /\
  always (concat (fives [0; 1; 2]) (fives [3; 4; 5])) = true /\
  KalmanFilter.filter always (concat (fives [0; 1; 2]) (fives [3; 4; 5]))
    scalar_world
    = (Ok (concat three_estimates later_estimates), scalar_holding six_kf).
Proof.
  assert (H1 : KalmanFilter.filter always (fives [0; 1; 2]) scalar_world
               = (Ok three_estimates,
                  scalar_holding (scalar_kf (qc 100 21) (qc 13 21))))
    by qc_eval.
  assert (H2 : KalmanFilter.filter always (fives [3; 4; 5])
                 (scalar_holding (scalar_kf (qc 100 21) (qc 13 21)))
               = (Ok later_estimates, scalar_holding six_kf))
    by qc_eval.
  split; [reflexivity|]. split; [exact H1|]. split; [exact H2|].
  split; [reflexivity|].
  exact (filter_concat always (fives [0; 1; 2]) (fives [3; 4; 5])
           scalar_world _ _ _ _ eq_refl H1 H2 eq_refl).
Defined.

(** [filter_dimension_check] on the scalar model holding its filter object,
    called with a series of width 2. *)
Lemma filter_dimension_check_witness :
  KalmanFilter.kf
    (KalmanFilter.self (scalar_holding (scalar_kf (qc 0 1) (qc 1 1))))
    = Some O /\
  KalmanFilter.heap (scalar_holding (scalar_kf (qc 0 1) (qc 1 1))) !! O
    = Some (scalar_kf (qc 0 1) (qc 1 1)) /\
  (Z.of_nat (TimeSeries.width pairs)
     <> FpKalmanFilter.dim_z (scalar_kf (qc 0 1) (qc 1 1)) ->
   fst (KalmanFilter.filter always pairs
          (scalar_holding (scalar_kf (qc 0 1) (qc 1 1))))
     = Raise (ValidationError KalmanFilter.dim_z_message)) /\
  (Z.of_nat (TimeSeries.width pairs)
     = FpKalmanFilter.dim_z (scalar_kf (qc 0 1) (qc 1 1)) ->
   forall msg,
     fst (KalmanFilter.filter always pairs
            (scalar_holding (scalar_kf (qc 0 1) (qc 1 1))))
       <> Raise (ValidationError msg)).
Proof.
  split; [reflexivity|]. split; [reflexivity|].
  exact (filter_dimension_check always pairs
           (scalar_holding (scalar_kf (qc 0 1) (qc 1 1))) O
           (scalar_kf (qc 0 1) (qc 1 1)) eq_refl eq_refl).
Defined.

(** [filter_mismatch_untouched] on the same call, which does fail the width
    check. *)
Lemma filter_mismatch_untouched_witness :
  KalmanFilter.kf
    (KalmanFilter.self (scalar_holding (scalar_kf (qc 0 1) (qc 1 1))))
    = Some O /\
  KalmanFilter.heap (scalar_holding (scalar_kf (qc 0 1) (qc 1 1))) !! O
    = Some (scalar_kf (qc 0 1) (qc 1 1)) /\
  KalmanFilter.filter always pairs
    (scalar_holding (scalar_kf (qc 0 1) (qc 1 1)))
    = (Raise (ValidationError KalmanFilter.dim_z_message),
       scalar_holding (scalar_kf (qc 0 1) (qc 1 1))) /\
  (forall msg w',
     KalmanFilter.filter always pairs
       (scalar_holding (scalar_kf (qc 0 1) (qc 1 1)))
       = (Raise (ValidationError msg), w') ->
     w' = scalar_holding (scalar_kf (qc 0 1) (qc 1 1)) /\
     KalmanFilter.heap w' !! O = Some (scalar_kf (qc 0 1) (qc 1 1))) /\
  (forall out w',
     KalmanFilter.filter always pairs
       (scalar_holding (scalar_kf (qc 0 1) (qc 1 1))) = (Ok out, w') ->
     exists k',
       steps (scalar_kf (qc 0 1) (qc 1 1))
         (np.rows (TimeSeries.values pairs)) = Ok k' /\
       KalmanFilter.heap w' !! O = Some k').
Proof.
  split; [reflexivity|]. split; [reflexivity|]. split; [reflexivity|].
  exact (filter_mismatch_untouched always pairs
           (scalar_holding (scalar_kf (qc 0 1) (qc 1 1))) O
           (scalar_kf (qc 0 1) (qc 1 1)) eq_refl eq_refl).
Defined.

(** [init_nonpositive_dim_x] at [dim_x = 0] with every default. *)
Lemma init_nonpositive_dim_x_witness :
  0 <= 0 /\
  ((exists m,
      KalmanFilter.__init__ 0 None None None None None None None = Ok m) <->
   (0 = 0 \/
    (is_Some (@None np.vector) /\ is_Some (@None np.ndarray) /\
     is_Some (@None np.ndarray) /\ is_Some (@None np.ndarray)))) /\
  (forall e,
     KalmanFilter.__init__ 0 None None None None None None None = Raise e ->
     e = ValueError np.negative_dims).
Proof.
  assert (H0 : 0 <= 0) by lia.
  split; [exact H0|].
  exact (init_nonpositive_dim_x 0 None None None None None None H0).
Defined.


(** [filter_builds_once] on the scalar scenario. *)
Lemma filter_builds_once_witness :
  KalmanFilter.kf (KalmanFilter.self scalar_world) = None /\
  KalmanFilter.params (KalmanFilter.self scalar_world)
    = Some scalar_params /\
  0 < KalmanFilter.dim_x scalar_params /\
  KalmanFilter.filter always (fives [0; 1; 2]) scalar_world
    = KalmanFilter.filter always (fives [0; 1; 2])
        (scalar_holding (scalar_kf (qc 0 1) (qc 1 1))) /\
  forall later,
    KalmanFilter.kf
      (KalmanFilter.self
         (filter_all always (fives [0; 1; 2] :: later) scalar_world))
      = Some O /\
    length
      (KalmanFilter.heap
         (filter_all always (fives [0; 1; 2] :: later) scalar_world))
      = 1%nat /\
    take O
      (KalmanFilter.heap
         (filter_all always (fives [0; 1; 2] :: later) scalar_world))
      = [] /\
    exists k,
      KalmanFilter.heap
        (filter_all always (fives [0; 1; 2] :: later) scalar_world) !! O
        = Some k /\
      same_config (scalar_kf (qc 0 1) (qc 1 1)) k.
Proof.
  assert (Hdx : 0 < KalmanFilter.dim_x scalar_params) by (simpl; lia).
  split; [reflexivity|]. split; [reflexivity|]. split; [exact Hdx|].
  exact (filter_builds_once always (fives [0; 1; 2]) scalar_world
           scalar_params eq_refl eq_refl Hdx).
Defined.

(** [scalar_scenario] with a base class that accepts every series, from the
    empty store. *)
Lemma scalar_scenario_witness :
  always (fives [0; 1; 2]) = true /\
  exists out w',
    KalmanFilter.filter always (fives [0; 1; 2])
      (KalmanFilter.mk_world [] scalar_model) = (Ok out, w') /\
    TimeSeries.time_index out = [0; 1; 2] /\
    np.rows (TimeSeries.values out)
      = [[qc 10 3]; [qc 35 8]; [qc 100 21]] /\
    (qc 333 100 < qc 10 3)%Qc /\ (qc 10 3 < qc 334 100)%Qc /\
    (qc 10 3 < qc 35 8)%Qc /\ (qc 35 8 < qc 100 21)%Qc /\
    (qc 100 21 < qc 5 1)%Qc.
Proof.
  split; [reflexivity|].
  exact (scalar_scenario always [] 0 1 2 eq_refl).
Defined.


(** * Further properties of the model class *)

Section World.

Import KalmanFilter.

Variable base_accepts : TimeSeries.t -> bool.

Lemma cached_call_snd s r k w :
  exists k', same_config k k' /\
    (snd (cached_call base_accepts s r k w) = w \/
     snd (cached_call base_accepts s r k w) = store r k' w).
Proof.
  unfold cached_call.
  destruct (_ =? _); [|exists k; split; [apply same_config_refl|by left]].
  destruct (base_accepts s);
    [|exists k; split; [apply same_config_refl|by left]].
  destruct (params (self w)) as [p|];
    [|exists k; split; [apply same_config_refl|by left]].
  destruct (dim_x p <? 0);
    [exists k; split; [apply same_config_refl|by left]|].
  pose proof (run_config (dim_x p) k (np.rows (TimeSeries.values s))) as Hc.
  destruct (run (dim_x p) k (np.rows (TimeSeries.values s)))
    as [[outs|e] k']; exists k'; (split; [done|by right]).
Qed.

(** Where a call leaves the world: as it was, or with the object behind
    [self.kf] replaced by one of the same configuration, that object being
    appended first when the call built it. *)
Lemma filter_snd s w :
  snd (filter base_accepts s w) = w \/
  (exists r k k',
     kf (self w) = Some r /\ heap w !! r = Some k /\ same_config k k' /\
     snd (filter base_accepts s w) = store r k' w) \/
  (exists p k',
     kf (self w) = None /\ params (self w) = Some p /\
     same_config (built p (TimeSeries.width s)) k' /\
     snd (filter base_accepts s w)
       = store (length (heap w)) k' (cached p (TimeSeries.width s) w)).
Proof.
  destruct (kf (self w)) as [r|] eqn:Hr.
  - destruct (heap w !! r) as [k|] eqn:Hk.
    + rewrite (filter_cached _ s w r k Hr Hk).
      destruct (cached_call_snd s r k w) as (k' & Hc & [H|H]);
        [by left|].
      right; left. by exists r, k, k'.
    + rewrite (filter_dangling _ s w r Hr Hk). by left.
  - destruct (params (self w)) as [p|] eqn:Hp.
    + rewrite (filter_fresh _ s w p Hr Hp).
      destruct (dim_x p <? 0); [by left|].
      set (w1 := cached p (TimeSeries.width s) w).
      assert (Hk : heap w1 !! length (heap w)
                   = Some (built p (TimeSeries.width s)))
        by (by apply list_lookup_middle).
      rewrite (filter_cached _ s w1 _ _ eq_refl Hk).
      destruct (cached_call_snd s (length (heap w))
                  (built p (TimeSeries.width s)) w1) as (k' & Hc & [H|H]).
      * right; right. exists p, (built p (TimeSeries.width s)).
        repeat split; try done. rewrite H. symmetry. by apply store_id.
      * right; right. by exists p, k'.
    + rewrite (filter_unset _ s w Hr Hp). by left.
Qed.

Lemma filter_params s w :
  params (self (snd (filter base_accepts s w))) = params (self w).
Proof.
  destruct (filter_snd s w)
    as [->|[(r & k & k' & _ & _ & _ & ->)|(p & k' & _ & Hp & _ & ->)]];
    done.
Qed.

Lemma filter_all_params calls : forall w,
  params (self (filter_all base_accepts calls w)) = params (self w).
Proof.
  induction calls as [|s calls IH]; intros w; simpl; [done|].
  by rewrite IH, filter_params.
Qed.

Lemma str_result w :
  __str__ w =
    (match params (self w) with
     | Some p => Ok ("KalmanFilter(dim_x=" +:+ pretty (dim_x p) +:+ ")")
     | None => Raise (AttributeError "dim_x")
     end, w).
Proof.
  unfold __str__, bind, getattr, ret. by destruct (params (self w)).
Qed.

End World.

(** X1. A model that [__init__] built from parameters prints as
    [KalmanFilter(dim_x=n)], with [n] the decimal writing of the [dim_x] it
    was given, in whatever store it lives and after any calls of [filter],
    whatever they returned; printing changes nothing. *)
Theorem str_parametric (base_accepts : TimeSeries.t -> bool)
    (dim_x : Z) (x_init : option np.vector) (P Q R H F : option np.ndarray)
    (m : KalmanFilter.t) (h : list FpKalmanFilter.t)
    (calls : list TimeSeries.t) :
  KalmanFilter.__init__ dim_x x_init P Q R H F None = Ok m ->
  let w := filter_all base_accepts calls (KalmanFilter.mk_world h m) in
  KalmanFilter.__str__ w
    = (Ok ("KalmanFilter(dim_x=" +:+ pretty dim_x +:+ ")"), w).
Proof.
  intros Hm w. rewrite str_result. unfold w.
  rewrite filter_all_params. simpl.
  unfold KalmanFilter.__init__ in Hm.
  destruct (KalmanFilter.or_else x_init (np.zeros dim_x)); [|done].
  destruct (KalmanFilter.or_else P (np.eye dim_x)); [|done].
  destruct (KalmanFilter.or_else Q (np.eye dim_x)); [|done].
  destruct (KalmanFilter.or_else F (np.eye dim_x)); [|done].
  simpl in Hm. by injection Hm as <-.
Qed.

(** X2. A model that [__init__] built around a supplied filter object cannot
    be printed: [__str__] raises [AttributeError] on [self.dim_x], in
    whatever store the model lives and after any calls of [filter]. *)
Theorem str_prebuilt (base_accepts : TimeSeries.t -> bool)
    (dim_x : Z) (x_init : option np.vector) (P Q R H F : option np.ndarray)
    (r : loc) (h : list FpKalmanFilter.t) (calls : list TimeSeries.t) :
  exists m,
    KalmanFilter.__init__ dim_x x_init P Q R H F (Some r) = Ok m /\
    let w := filter_all base_accepts calls (KalmanFilter.mk_world h m) in
    KalmanFilter.__str__ w = (Raise (AttributeError "dim_x"), w).
Proof.
  exists (KalmanFilter.mk None (Some r)). split; [done|].
  intros w. rewrite str_result. unfold w. by rewrite filter_all_params.
Qed.

(** X3. Whatever a call of [filter] returns, it leaves the parameters of the
    model as they were, keeps the reference in [self.kf] once there is one,
    leaves every object of the store other than the one behind [self.kf] as
    it was, and adds at most one object to the store. *)
Theorem filter_frame (base_accepts : TimeSeries.t -> bool)
    (s : TimeSeries.t) (w : KalmanFilter.world) :
  let w' := snd (KalmanFilter.filter base_accepts s w) in
  KalmanFilter.params (KalmanFilter.self w')
    = KalmanFilter.params (KalmanFilter.self w) /\
  (forall r, KalmanFilter.kf (KalmanFilter.self w) = Some r ->
             KalmanFilter.kf (KalmanFilter.self w') = Some r) /\
  (forall i k, KalmanFilter.heap w !! i = Some k ->
               KalmanFilter.kf (KalmanFilter.self w) <> Some i ->
               KalmanFilter.heap w' !! i = Some k) /\
  (length (KalmanFilter.heap w) <= length (KalmanFilter.heap w')
   <= S (length (KalmanFilter.heap w)))%nat.
Proof.
  intros w'. unfold w'. split; [apply filter_params|].
  destruct (filter_snd base_accepts s w)
    as [->|[(r & k & k' & Hr & Hk & _ & ->)|(p & k' & Hr & Hp & _ & ->)]].
  - repeat split; try done; lia.
  - repeat split; simpl; try done.
    + intros i k0 Hi Hne. rewrite list_lookup_insert_ne; [done|congruence].
    + rewrite length_insert. lia.
    + rewrite length_insert. lia.
  - repeat split; simpl.
    + intros r. by rewrite Hr.
    + intros i k0 Hi _.
      pose proof (lookup_lt_Some _ _ _ Hi).
      rewrite list_lookup_insert_ne by lia. by rewrite lookup_app_l.
    + rewrite length_insert, length_app. simpl. lia.
    + rewrite length_insert, length_app. simpl. lia.
Qed.

Section Further.

Import KalmanFilter.

Variable base_accepts : TimeSeries.t -> bool.

Lemma run_cons_ok dx k obs obss outs k' :
  run dx k (obs :: obss) = (Ok outs, k') ->
  exists k1 k2 outs',
    FpKalmanFilter.predict k = Ok k1 /\
    FpKalmanFilter.update obs k1 = Ok k2 /\
    Z.of_nat (length (FpKalmanFilter.x k2)) = dx /\
    run dx k2 obss = (Ok outs', k') /\
    outs = FpKalmanFilter.x k2 :: outs'.
Proof.
  simpl.
  destruct (FpKalmanFilter.predict k) as [k1|e] eqn:Hp; [|done].
  destruct (FpKalmanFilter.update obs k1) as [k2|e] eqn:Hu; [|done].
  unfold np.reshape.
  destruct (Z.eqb_spec (Z.of_nat (length (FpKalmanFilter.x k2))) dx);
    [|done].
  destruct (run dx k2 obss) as [[outs'|e'] k3] eqn:Hrun; [|done].
  intros [= <- <-]. by exists k1, k2, outs'.
Qed.

Lemma run_last dx k obss : forall outs k',
  run dx k obss = (Ok outs, k') ->
  obss <> [] ->
  last outs = Some (FpKalmanFilter.x k').
Proof.
  revert k. induction obss as [|obs obss IH]; intros k outs k' Hrun Hne;
    [done|].
  apply run_cons_ok in Hrun as (k1 & k2 & outs' & _ & _ & _ & Hrun & ->).
  destruct obss as [|obs' obss].
  - simpl in Hrun. by injection Hrun as <- <-.
  - pose proof (IH k2 outs' k' Hrun) as Hl.
    apply run_cons_ok in Hrun as (? & ? & outs'' & _ & _ & _ & _ & ->).
    simpl in *. by apply Hl.
Qed.

Lemma run_split dx k obss1 obss2 outs k2 :
  run dx k (obss1 ++ obss2) = (Ok outs, k2) ->
  exists outs1 k1 outs2,
    run dx k obss1 = (Ok outs1, k1) /\
    run dx k1 obss2 = (Ok outs2, k2) /\
    outs = outs1 ++ outs2.
Proof.
  rewrite run_app.
  destruct (run dx k obss1) as [[outs1|e] k1]; [|done].
  destruct (run dx k1 obss2) as [[outs2|e] k2'] eqn:H2; [|done].
  intros [= <- <-]. by exists outs1, k1, outs2.
Qed.

End Further.

(** X4. On a fresh model built from parameters with a positive [dim_x], a
    first call that the base class rejects raises the base class's
    exception, but has already built and cached the filter object, with
    [dim_z] the width of the rejected series and the initial mean and
    covariance; a later call on a series of another width then fails the
    width check. *)
Theorem filter_rejected_still_builds (base_accepts : TimeSeries.t -> bool)
    (s : TimeSeries.t) (w : KalmanFilter.world) (p : KalmanFilter.attrs) :
  KalmanFilter.kf (KalmanFilter.self w) = None ->
  KalmanFilter.params (KalmanFilter.self w) = Some p ->
  0 < KalmanFilter.dim_x p ->
  base_accepts s = false ->
  exists w1 k,
    KalmanFilter.filter base_accepts s w = (Raise BaseFilterError, w1) /\
    KalmanFilter.kf (KalmanFilter.self w1)
      = Some (length (KalmanFilter.heap w)) /\
    KalmanFilter.heap w1 = KalmanFilter.heap w ++ [k] /\
    FpKalmanFilter.dim_z k = Z.of_nat (TimeSeries.width s) /\
    FpKalmanFilter.x k = KalmanFilter.x_init p /\
    FpKalmanFilter.P k = KalmanFilter.P p /\
    forall s',
      TimeSeries.width s' <> TimeSeries.width s ->
      KalmanFilter.filter base_accepts s' w1
        = (Raise (ValidationError KalmanFilter.dim_z_message), w1).
Proof.
  intros Hr Hp Hdx Hb.
  set (w1 := cached p (TimeSeries.width s) w).
  assert (Hk : KalmanFilter.heap w1 !! length (KalmanFilter.heap w)
               = Some (built p (TimeSeries.width s)))
    by (by apply list_lookup_middle).
  exists w1, (built p (TimeSeries.width s)). split.
  - rewrite (filter_fresh _ s w p Hr Hp).
    replace (KalmanFilter.dim_x p <? 0) with false
      by (symmetry; apply Z.ltb_ge; lia).
    rewrite (filter_cached _ s w1 _ _ eq_refl Hk).
    unfold cached_call. simpl FpKalmanFilter.dim_z.
    by rewrite Z.eqb_refl, Hb.
  - repeat split; try done.
    intros s' Hw.
    rewrite (filter_cached _ s' w1 _ _ eq_refl Hk).
    unfold cached_call. simpl FpKalmanFilter.dim_z.
    destruct (Z.eqb_spec (Z.of_nat (TimeSeries.width s'))
                (Z.of_nat (TimeSeries.width s))); [lia|done].
Qed.

(** X5. A fresh model built from parameters with a negative [dim_x] never
    filters: every call raises a [ValueError] before any filter object is
    cached, and any number of calls leaves the world as it was. *)
Theorem filter_negative_dim_x (base_accepts : TimeSeries.t -> bool)
    (w : KalmanFilter.world) (p : KalmanFilter.attrs) :
  KalmanFilter.kf (KalmanFilter.self w) = None ->
  KalmanFilter.params (KalmanFilter.self w) = Some p ->
  KalmanFilter.dim_x p < 0 ->
  (forall s, exists msg,
     KalmanFilter.filter base_accepts s w = (Raise (ValueError msg), w)) /\
  (forall calls, filter_all base_accepts calls w = w).
Proof.
  intros Hr Hp Hdx.
  assert (Hcall : forall s,
    KalmanFilter.filter base_accepts s w
      = (Raise (ValueError np.negative_dims), w)).
  { intros s. rewrite (filter_fresh _ s w p Hr Hp).
    by replace (KalmanFilter.dim_x p <? 0) with true
      by (symmetry; apply Z.ltb_lt; lia). }
  split.
  - intros s. eexists. apply Hcall.
  - intros calls. induction calls as [|s calls IH]; simpl; [done|].
    by rewrite Hcall.
Qed.

(** X6. A call that returns on the concatenation of two series of the same
    width, each of at least three observations (a shorter index gives the
    container no sampling frequency to infer) and each accepted by the base
    class, splits: the call on the first series returns, the call on the
    second one after it returns and ends in the same world, and the output
    is the concatenation of the two outputs.  So the estimates for the first
    series do not depend on the observations that follow it. *)
Theorem filter_split (base_accepts : TimeSeries.t -> bool)
    (s1 s2 : TimeSeries.t) (w0 w2 : KalmanFilter.world)
    (out : TimeSeries.t) :
  TimeSeries.width s2 = TimeSeries.width s1 ->
  (3 <= len (TimeSeries.values s1))%nat ->
  (3 <= len (TimeSeries.values s2))%nat ->
  base_accepts s1 = true ->
  base_accepts s2 = true ->
  KalmanFilter.filter base_accepts (concat s1 s2) w0 = (Ok out, w2) ->
  exists o1 w1 o2,
    KalmanFilter.filter base_accepts s1 w0 = (Ok o1, w1) /\
    KalmanFilter.filter base_accepts s2 w1 = (Ok o2, w2) /\
    out = concat o1 o2.
Proof.
  intros Hw Hl1 Hl2 Hb1 Hb2 Hf. apply filter_ok_iff in Hf.
  destruct Hf as (r & k & p & outs & k2 & He & Hp & Hdx & _ & Hz & Hrun
                  & Hne & -> & ->).
  unfold len, np.nrows, TimeSeries.values in Hl1, Hl2.
  change (entry w0 (concat s1 s2)) with (entry w0 s1) in He.
  change (prepared w0 (concat s1 s2)) with (prepared w0 s1).
  change (TimeSeries.width (concat s1 s2)) with (TimeSeries.width s1) in Hz.
  unfold TimeSeries.values in Hrun. simpl in Hrun.
  apply run_split in Hrun as (outs1 & k1 & outs2 & Hrun1 & Hrun2 & ->).
  assert (Hne1 : outs1 <> []).
  { apply run_length in Hrun1. destruct outs1; [simpl in Hrun1; lia|done]. }
  assert (Hne2 : outs2 <> []).
  { apply run_length in Hrun2. destruct outs2; [simpl in Hrun2; lia|done]. }
  exists (estimates s1 (KalmanFilter.dim_x p) outs1),
         (store r k1 (prepared w0 s1)),
         (estimates s2 (KalmanFilter.dim_x p) outs2).
  split; [|split; [|done]].
  - apply filter_ok_iff. by exists r, k, p, outs1, k1.
  - apply filter_ok_iff.
    destruct (entry_store w0 s1 r k k1 He s2) as (He2 & Hprep).
    destruct (entry_prepared _ _ _ _ He) as (_ & _ & Hpp).
    exists r, k1, p, outs2, k2. rewrite Hprep, store_store.
    repeat split; try done.
    + change (KalmanFilter.self (store r k1 (prepared w0 s1)))
        with (KalmanFilter.self (prepared w0 s1)).
      by rewrite Hpp.
    + pose proof (run_config (KalmanFilter.dim_x p) k
                    (np.rows (TimeSeries.data s1))) as Hc.
      rewrite Hrun1 in Hc. destruct Hc as (_ & Hdz & _). simpl in Hdz.
      rewrite Hdz, <- Hz. by rewrite Hw.
Qed.

(** X7. The time index plays no part in the filtering: a series with the
    same values as an accepted one, under any other time index, is filtered
    to the same values and leaves the same world, and the output carries
    the time index of its input. *)
Theorem filter_ignores_times (base_accepts : TimeSeries.t -> bool)
    (s s' : TimeSeries.t) (w w' : KalmanFilter.world) (out : TimeSeries.t) :
  KalmanFilter.filter base_accepts s w = (Ok out, w') ->
  TimeSeries.values s' = TimeSeries.values s ->
  base_accepts s' = true ->
  KalmanFilter.filter base_accepts s' w
    = (Ok (TimeSeries.mk (TimeSeries.time_index s')
             (TimeSeries.values out)), w').
Proof.
  intros Hf Hv Hb. apply filter_ok_iff in Hf.
  destruct Hf as (r & k & p & outs & k' & He & Hp & Hdx & _ & Hz & Hrun
                  & Hne & -> & ->).
  assert (Hw : TimeSeries.width s' = TimeSeries.width s)
    by (unfold TimeSeries.width; unfold TimeSeries.values in Hv;
        by rewrite Hv).
  apply filter_ok_iff. exists r, k, p, outs, k'.
  unfold entry, prepared in *. rewrite Hw, Hv.
  by repeat split.
Qed.

(** X8. A call is not rolled back when it meets a singular innovation
    covariance in the middle of a series: on a model that holds its filter
    object, if the series has the expected width and is accepted by the base
    class, the loop has gone through the [i] observations before observation
    [i], the predict step on it succeeds, and the update step raises with an
    innovation covariance that cannot be inverted, then the call raises that
    exception and the filter object stays as that predict step left it. *)
Theorem filter_singular_update (base_accepts : TimeSeries.t -> bool)
    (s : TimeSeries.t) (w : KalmanFilter.world)
    (r : loc) (k : FpKalmanFilter.t) (p : KalmanFilter.attrs)
    (i : nat) (obs : np.vector) (outs : list np.vector)
    (k_i k_pred : FpKalmanFilter.t) (S : np.ndarray) (e e_inv : exn) :
  KalmanFilter.kf (KalmanFilter.self w) = Some r ->
  KalmanFilter.heap w !! r = Some k ->
  KalmanFilter.params (KalmanFilter.self w) = Some p ->
  0 < KalmanFilter.dim_x p ->
  Z.of_nat (TimeSeries.width s) = FpKalmanFilter.dim_z k ->
  base_accepts s = true ->
  np.rows (TimeSeries.values s) !! i = Some obs ->
  run (KalmanFilter.dim_x p) k (take i (np.rows (TimeSeries.values s)))
    = (Ok outs, k_i) ->
  FpKalmanFilter.predict k_i = Ok k_pred ->
  innovation_covariance k_pred = Ok S ->
  np.inv S = Raise e_inv ->
  FpKalmanFilter.update obs k_pred = Raise e ->
  KalmanFilter.filter base_accepts s w = (Raise e, store r k_pred w).
Proof.
  intros Hr Hk Hp Hdx Hz Hb Hobs Hrun Hpred _ _ Hupd.
  rewrite (filter_cached _ s w r k Hr Hk). unfold cached_call.
  rewrite Hz, Z.eqb_refl, Hb, Hp.
  replace (KalmanFilter.dim_x p <? 0) with false
    by (symmetry; apply Z.ltb_ge; lia).
  rewrite <- (take_drop_middle _ _ _ Hobs), run_app.
  rewrite Hrun. simpl. by rewrite Hpred, Hupd.
Qed.

(** X10. On a model that [__init__] built around a supplied filter object,
    no call of [filter] returns, and none changes the supplied object or
    anything else: every call raises and leaves the world as it was. *)
Theorem prebuilt_filter_never_filters (base_accepts : TimeSeries.t -> bool)
    (dim_x : Z) (x_init : option np.vector) (P Q R H F : option np.ndarray)
    (r : loc) (s : TimeSeries.t) (w : KalmanFilter.world) :
  KalmanFilter.__init__ dim_x x_init P Q R H F (Some r)
    = Ok (KalmanFilter.self w) ->
  exists e, KalmanFilter.filter base_accepts s w = (Raise e, w).
Proof.
  intros [= Hs].
  assert (Hr : KalmanFilter.kf (KalmanFilter.self w) = Some r)
    by (by rewrite <- Hs).
  assert (Hp : KalmanFilter.params (KalmanFilter.self w) = None)
    by (by rewrite <- Hs).
  destruct (KalmanFilter.heap w !! r) as [k|] eqn:Hk.
  - rewrite (filter_cached _ s w r k Hr Hk). unfold cached_call.
    rewrite Hp.
    destruct (_ =? _); [|by eexists].
    destruct (base_accepts s); by eexists.
  - rewrite (filter_dangling _ s w r Hr Hk). by eexists.
Qed.

(** X11. The defaults of the docstring.  A model built with a positive
    [dim_x] and nothing else, on its first call, works on a filter object
    with the zero vector as mean, the identity as covariance, process noise
    and transition, the identity of the size of the input width as
    measurement noise and the all-ones matrix as observation map. *)
Theorem init_defaults_then_filter (base_accepts : TimeSeries.t -> bool)
    (n : Z) (s : TimeSeries.t) (h : list FpKalmanFilter.t) :
  0 < n ->
  exists m,
    KalmanFilter.__init__ n None None None None None None None = Ok m /\
    KalmanFilter.filter base_accepts s (KalmanFilter.mk_world h m)
    = KalmanFilter.filter base_accepts s
        (KalmanFilter.mk_world
           (h ++ [FpKalmanFilter.mk n (Z.of_nat (TimeSeries.width s))
                    (replicate (Z.to_nat n) 0%Qc)
                    (np.identity (Z.to_nat n))
                    (np.identity (Z.to_nat n))
                    (np.identity (TimeSeries.width s))
                    (np.mk_ndarray
                       (replicate (TimeSeries.width s)
                          (replicate (Z.to_nat n) 1%Qc))
                       (Z.to_nat n))
                    (np.identity (Z.to_nat n))])
           (KalmanFilter.mk (KalmanFilter.params m) (Some (length h)))).
Proof.
  intros Hn.
  assert (Hn0 : (n <? 0) = false) by (apply Z.ltb_ge; lia).
  set (p := KalmanFilter.mk_attrs n (replicate (Z.to_nat n) 0%Qc)
              (np.identity (Z.to_nat n)) (np.identity (Z.to_nat n))
              None None (np.identity (Z.to_nat n))).
  exists (KalmanFilter.mk (Some p) None). split.
  - unfold KalmanFilter.__init__, KalmanFilter.or_else, np.zeros, np.eye.
    by rewrite Hn0.
  - rewrite (filter_fresh _ s
               (KalmanFilter.mk_world h (KalmanFilter.mk (Some p) None)) p
               eq_refl eq_refl).
    simpl KalmanFilter.dim_x. by rewrite Hn0.
Qed.


(** X13. The first call fixes the width for good: on a fresh model built
    from parameters with a positive [dim_x], after a first call on a series
    and any further calls, whatever they returned, a call on a series of
    another width than the first fails the width check and changes
    nothing. *)
Theorem dim_z_pinned (base_accepts : TimeSeries.t -> bool)
    (s s' : TimeSeries.t) (later : list TimeSeries.t)
    (w : KalmanFilter.world) (p : KalmanFilter.attrs) :
  KalmanFilter.kf (KalmanFilter.self w) = None ->
  KalmanFilter.params (KalmanFilter.self w) = Some p ->
  0 < KalmanFilter.dim_x p ->
  TimeSeries.width s' <> TimeSeries.width s ->
  let w1 := filter_all base_accepts (s :: later) w in
  KalmanFilter.filter base_accepts s' w1
    = (Raise (ValidationError KalmanFilter.dim_z_message), w1).
Proof.
  intros Hr Hp Hdx Hw w1.
  assert (Hheld : holds (length (KalmanFilter.heap w)) p
                    (built p (TimeSeries.width s)) (KalmanFilter.heap w) w1).
  { unfold w1. simpl. rewrite (filter_fresh _ s w p Hr Hp).
    replace (KalmanFilter.dim_x p <? 0) with false
      by (symmetry; apply Z.ltb_ge; lia).
    apply holds_filter_all; [done|]. apply holds_filter; [done|].
    repeat split; simpl.
    - rewrite length_app. simpl. lia.
    - by rewrite take_app_length.
    - exists (built p (TimeSeries.width s)).
      split; [by apply list_lookup_middle|apply same_config_refl]. }
  destruct Hheld as (Hr1 & _ & _ & _ & k & Hk & (_ & Hdz & _)).
  rewrite (filter_cached _ s' w1 _ k Hr1 Hk). unfold cached_call.
  rewrite Hdz. simpl FpKalmanFilter.dim_z.
  destruct (Z.eqb_spec (Z.of_nat (TimeSeries.width s'))
              (Z.of_nat (TimeSeries.width s))); [lia|done].
Qed.

(** X14. After a call that returns on a series with at least one
    observation, the mean held by the filter object behind [self.kf] is the
    last row of the output. *)
Theorem filter_last_row_is_state (base_accepts : TimeSeries.t -> bool)
    (s : TimeSeries.t) (w w' : KalmanFilter.world) (out : TimeSeries.t) :
  KalmanFilter.filter base_accepts s w = (Ok out, w') ->
  np.rows (TimeSeries.values s) <> [] ->
  exists r k',
    KalmanFilter.kf (KalmanFilter.self w') = Some r /\
    KalmanFilter.heap w' !! r = Some k' /\
    last (np.rows (TimeSeries.values out)) = Some (FpKalmanFilter.x k').
Proof.
  intros Hf Hne. apply filter_ok_iff in Hf.
  destruct Hf as (r & k & p & outs & k' & He & Hp & Hdx & _ & Hz & Hrun
                  & _ & -> & ->).
  destruct (entry_prepared _ _ _ _ He) as (Hr & Hk & _).
  exists r, k'. split; [done|]. split; [by eapply store_lookup|].
  by eapply run_last.
Qed.

(** ** The further properties at concrete inputs *)

(** [str_parametric] on the scalar model after one call. *)
Lemma str_parametric_witness :
  KalmanFilter.__init__ 1 (Some [qc 0 1]) (Some (scalar (qc 1 1)))
    (Some (scalar (qc 1 1))) (Some (scalar (qc 1 1)))
    (Some (scalar (qc 1 1))) (Some (scalar (qc 1 1))) None
    = Ok scalar_model /\
  KalmanFilter.__str__
    (filter_all always [fives [0; 1; 2]] (KalmanFilter.mk_world [] scalar_model))
  = (Ok "KalmanFilter(dim_x=1)",
     filter_all always [fives [0; 1; 2]]
       (KalmanFilter.mk_world [] scalar_model)).
Proof.
  split; [reflexivity|].
  exact (str_parametric always 1 (Some [qc 0 1]) (Some (scalar (qc 1 1)))
           (Some (scalar (qc 1 1))) (Some (scalar (qc 1 1)))
           (Some (scalar (qc 1 1))) (Some (scalar (qc 1 1)))
           scalar_model [] [fives [0; 1; 2]] eq_refl).
Defined.

(** [filter_rejected_still_builds] on the scalar model and a base class that
    accepts nothing. *)
Lemma filter_rejected_still_builds_witness :
  KalmanFilter.kf (KalmanFilter.self scalar_world) = None /\
  KalmanFilter.params (KalmanFilter.self scalar_world)
    = Some scalar_params /\
  0 < KalmanFilter.dim_x scalar_params /\
  never (fives [0]) = false /\
  exists w1 k,
    KalmanFilter.filter never (fives [0]) scalar_world
      = (Raise BaseFilterError, w1) /\
    KalmanFilter.kf (KalmanFilter.self w1)
      = Some (length (KalmanFilter.heap scalar_world)) /\
    KalmanFilter.heap w1 = KalmanFilter.heap scalar_world ++ [k] /\
    FpKalmanFilter.dim_z k = Z.of_nat (TimeSeries.width (fives [0])) /\
    FpKalmanFilter.x k = KalmanFilter.x_init scalar_params /\
    FpKalmanFilter.P k = KalmanFilter.P scalar_params /\
    forall s',
      TimeSeries.width s' <> TimeSeries.width (fives [0]) ->
      KalmanFilter.filter never s' w1
        = (Raise (ValidationError KalmanFilter.dim_z_message), w1).
Proof.
  assert (Hdx : 0 < KalmanFilter.dim_x scalar_params) by (simpl; lia).
  split; [reflexivity|]. split; [reflexivity|]. split; [exact Hdx|].
  split; [reflexivity|].
  exact (filter_rejected_still_builds never (fives [0]) scalar_world
           scalar_params eq_refl eq_refl Hdx eq_refl).
Defined.

(** [filter_negative_dim_x] on the model with [dim_x = -1]. *)
Lemma filter_negative_dim_x_witness :
  KalmanFilter.__init__ (-1) (Some []) (Some (np.array []))
    (Some (np.array [])) None None (Some (np.array [])) None
    = Ok (KalmanFilter.self negative_world) /\
  KalmanFilter.kf (KalmanFilter.self negative_world) = None /\
  KalmanFilter.params (KalmanFilter.self negative_world)
    = Some negative_params /\
  KalmanFilter.dim_x negative_params < 0 /\
  (forall s, exists msg,
     KalmanFilter.filter always s negative_world
       = (Raise (ValueError msg), negative_world)) /\
  (forall calls, filter_all always calls negative_world = negative_world).
Proof.
  assert (Hdx : KalmanFilter.dim_x negative_params < 0) by (simpl; lia).
  split; [reflexivity|]. split; [reflexivity|]. split; [reflexivity|].
  split; [exact Hdx|].
  exact (filter_negative_dim_x always negative_world negative_params
           eq_refl eq_refl Hdx).
Defined.

(** [filter_split] on the scalar scenario continued to six observations,
    split in the middle. *)
Lemma filter_split_witness :
  TimeSeries.width (fives [3; 4; 5]) = TimeSeries.width (fives [0; 1; 2]) /\
  (3 <= len (TimeSeries.values (fives [0; 1; 2]%Z)))%nat /\
  (3 <= len (TimeSeries.values (fives [3; 4; 5]%Z)))%nat /\
  always (fives [0; 1; 2]) = true /\
  always (fives [3; 4; 5]) = true /\
  KalmanFilter.filter always (concat (fives [0; 1; 2]) (fives [3; 4; 5]))
    scalar_world
    = (Ok (concat three_estimates later_estimates), scalar_holding six_kf) /\
  exists o1 w1 o2,
    KalmanFilter.filter always (fives [0; 1; 2]) scalar_world
      = (Ok o1, w1) /\
    KalmanFilter.filter always (fives [3; 4; 5]) w1
      = (Ok o2, scalar_holding six_kf) /\
    concat three_estimates later_estimates = concat o1 o2.
Proof.
  assert (Hf : KalmanFilter.filter always
                 (concat (fives [0; 1; 2]) (fives [3; 4; 5])) scalar_world
               = (Ok (concat three_estimates later_estimates),
                  scalar_holding six_kf))
    by qc_eval.
  assert (H3 : (3 <= 3)%nat) by lia.
  split; [reflexivity|]. split; [exact H3|]. split; [exact H3|].
  split; [reflexivity|]. split; [reflexivity|]. split; [exact Hf|].
  exact (filter_split always (fives [0; 1; 2]) (fives [3; 4; 5])
           scalar_world _ _ eq_refl H3 H3 eq_refl eq_refl Hf).
Defined.

(** [filter_ignores_times] on the scalar scenario, at times 0, 1, 2 and at
    times 10, 20, 30. *)
Lemma filter_ignores_times_witness :
  KalmanFilter.filter always (fives [0; 1; 2]) scalar_world
    = (Ok three_estimates,
       scalar_holding (scalar_kf (qc 100 21) (qc 13 21))) /\
  TimeSeries.values (fives [10; 20; 30])
    = TimeSeries.values (fives [0; 1; 2]) /\
  always (fives [10; 20; 30]) = true /\
  KalmanFilter.filter always (fives [10; 20; 30]) scalar_world
    = (Ok (TimeSeries.mk (TimeSeries.time_index (fives [10; 20; 30]))
             (TimeSeries.values three_estimates)),
       scalar_holding (scalar_kf (qc 100 21) (qc 13 21))).
Proof.
  assert (Hf : KalmanFilter.filter always (fives [0; 1; 2]) scalar_world
               = (Ok three_estimates,
                  scalar_holding (scalar_kf (qc 100 21) (qc 13 21))))
    by qc_eval.
  split; [exact Hf|]. split; [reflexivity|]. split; [reflexivity|].
  exact (filter_ignores_times always (fives [0; 1; 2]) (fives [10; 20; 30])
           scalar_world _ _ Hf eq_refl eq_refl).
Defined.

(** [filter_singular_update] on the noise-free scenario: the first
    observation brings the covariance to 0, and the update on the second one
    finds the innovation covariance 0. *)
Lemma filter_singular_update_witness :
  KalmanFilter.kf
    (KalmanFilter.self (noiseless_holding (noiseless_kf (qc 0 1) (qc 1 1))))
    = Some O /\
  KalmanFilter.heap (noiseless_holding (noiseless_kf (qc 0 1) (qc 1 1))) !! O
    = Some (noiseless_kf (qc 0 1) (qc 1 1)) /\
  KalmanFilter.params
    (KalmanFilter.self (noiseless_holding (noiseless_kf (qc 0 1) (qc 1 1))))
    = Some noiseless_params /\
  0 < KalmanFilter.dim_x noiseless_params /\
  Z.of_nat (TimeSeries.width (fives [0; 1; 2]))
    = FpKalmanFilter.dim_z (noiseless_kf (qc 0 1) (qc 1 1)) /\
  always (fives [0; 1; 2]) = true /\
  np.rows (TimeSeries.values (fives [0; 1; 2])) !! 1%nat = Some [qc 5 1] /\
  run (KalmanFilter.dim_x noiseless_params) (noiseless_kf (qc 0 1) (qc 1 1))
    (take 1 (np.rows (TimeSeries.values (fives [0; 1; 2]))))
    = (Ok [[qc 5 1]], noiseless_kf (qc 5 1) (qc 0 1)) /\
  FpKalmanFilter.predict (noiseless_kf (qc 5 1) (qc 0 1))
    = Ok (noiseless_kf (qc 5 1) (qc 0 1)) /\
  innovation_covariance (noiseless_kf (qc 5 1) (qc 0 1))
    = Ok (scalar (qc 0 1)) /\
  np.inv (scalar (qc 0 1)) = Raise (LinAlgError np.singular) /\
  FpKalmanFilter.update [qc 5 1] (noiseless_kf (qc 5 1) (qc 0 1))
    = Raise (LinAlgError np.singular) /\
  KalmanFilter.filter always (fives [0; 1; 2])
    (noiseless_holding (noiseless_kf (qc 0 1) (qc 1 1)))
    = (Raise (LinAlgError np.singular),
       store O (noiseless_kf (qc 5 1) (qc 0 1))
         (noiseless_holding (noiseless_kf (qc 0 1) (qc 1 1)))).
Proof.
  assert (Hdx : 0 < KalmanFilter.dim_x noiseless_params) by (simpl; lia).
  assert (Hrun : run (KalmanFilter.dim_x noiseless_params)
                   (noiseless_kf (qc 0 1) (qc 1 1))
                   (take 1 (np.rows (TimeSeries.values (fives [0; 1; 2]))))
                 = (Ok [[qc 5 1]], noiseless_kf (qc 5 1) (qc 0 1)))
    by qc_eval.
  assert (Hpred : FpKalmanFilter.predict (noiseless_kf (qc 5 1) (qc 0 1))
                  = Ok (noiseless_kf (qc 5 1) (qc 0 1)))
    by qc_eval.
  assert (HS : innovation_covariance (noiseless_kf (qc 5 1) (qc 0 1))
               = Ok (scalar (qc 0 1)))
    by qc_eval.
  assert (Hinv : np.inv (scalar (qc 0 1)) = Raise (LinAlgError np.singular))
    by (vm_compute; reflexivity).
  assert (Hupd : FpKalmanFilter.update [qc 5 1]
                   (noiseless_kf (qc 5 1) (qc 0 1))
                 = Raise (LinAlgError np.singular))
    by (vm_compute; reflexivity).
  split; [reflexivity|]. split; [reflexivity|]. split; [reflexivity|].
  split; [exact Hdx|]. split; [reflexivity|]. split; [reflexivity|].
  split; [reflexivity|]. split; [exact Hrun|]. split; [exact Hpred|].
  split; [exact HS|]. split; [exact Hinv|]. split; [exact Hupd|].
  exact (filter_singular_update always (fives [0; 1; 2])
           (noiseless_holding (noiseless_kf (qc 0 1) (qc 1 1))) O
           (noiseless_kf (qc 0 1) (qc 1 1)) noiseless_params 1%nat
           [qc 5 1] [[qc 5 1]] (noiseless_kf (qc 5 1) (qc 0 1))
           (noiseless_kf (qc 5 1) (qc 0 1)) (scalar (qc 0 1))
           (LinAlgError np.singular) (LinAlgError np.singular)
           eq_refl eq_refl eq_refl Hdx eq_refl eq_refl eq_refl Hrun Hpred
           HS Hinv Hupd).
Defined.

(** [prebuilt_filter_never_filters] on a model built around a scalar filter
    object. *)
Lemma prebuilt_filter_never_filters_witness :
  KalmanFilter.__init__ 1 None None None None None None (Some O)
    = Ok (KalmanFilter.self prebuilt_world) /\
  exists e,
    KalmanFilter.filter always (fives [0]) prebuilt_world
      = (Raise e, prebuilt_world).
Proof.
  split; [reflexivity|].
  exact (prebuilt_filter_never_filters always 1 None None None None None
           None O (fives [0]) prebuilt_world eq_refl).
Defined.

(** [init_defaults_then_filter] for [dim_x = 1] and one scalar
    observation. *)
Lemma init_defaults_then_filter_witness :
  0 < 1 /\
  exists m,
    KalmanFilter.__init__ 1 None None None None None None None = Ok m /\
    KalmanFilter.filter always (fives [0]) (KalmanFilter.mk_world [] m)
    = KalmanFilter.filter always (fives [0])
        (KalmanFilter.mk_world
           ([] ++ [FpKalmanFilter.mk 1
                     (Z.of_nat (TimeSeries.width (fives [0])))
                     (replicate (Z.to_nat 1) 0%Qc)
                     (np.identity (Z.to_nat 1))
                     (np.identity (Z.to_nat 1))
                     (np.identity (TimeSeries.width (fives [0])))
                     (np.mk_ndarray
                        (replicate (TimeSeries.width (fives [0]))
                           (replicate (Z.to_nat 1) 1%Qc))
                        (Z.to_nat 1))
                     (np.identity (Z.to_nat 1))])
           (KalmanFilter.mk (KalmanFilter.params m)
              (Some (length (@nil FpKalmanFilter.t))))).
Proof.
  assert (H1 : 0 < 1) by lia.
  split; [exact H1|].
  exact (init_defaults_then_filter always 1 (fives [0]) [] H1).
Defined.


(** [dim_z_pinned] on the scalar model: a first call on three scalar
    observations, a second on three more, then a series of width 2. *)
Lemma dim_z_pinned_witness :
  KalmanFilter.kf (KalmanFilter.self scalar_world) = None /\
  KalmanFilter.params (KalmanFilter.self scalar_world)
    = Some scalar_params /\
  0 < KalmanFilter.dim_x scalar_params /\
  TimeSeries.width pairs <> TimeSeries.width (fives [0; 1; 2]) /\
  KalmanFilter.filter always pairs
    (filter_all always [fives [0; 1; 2]; fives [3; 4; 5]] scalar_world)
  = (Raise (ValidationError KalmanFilter.dim_z_message),
     filter_all always [fives [0; 1; 2]; fives [3; 4; 5]] scalar_world).
Proof.
  assert (Hdx : 0 < KalmanFilter.dim_x scalar_params) by (simpl; lia).
  assert (Hw : TimeSeries.width pairs <> TimeSeries.width (fives [0; 1; 2]))
    by (vm_compute; discriminate).
  split; [reflexivity|]. split; [reflexivity|]. split; [exact Hdx|].
  split; [exact Hw|].
  exact (dim_z_pinned always (fives [0; 1; 2]) pairs [fives [3; 4; 5]]
           scalar_world scalar_params eq_refl eq_refl Hdx Hw).
Defined.

(** [filter_last_row_is_state] on the scalar scenario. *)
Lemma filter_last_row_is_state_witness :
  KalmanFilter.filter always (fives [0; 1; 2]) scalar_world
    = (Ok three_estimates,
       scalar_holding (scalar_kf (qc 100 21) (qc 13 21))) /\
  np.rows (TimeSeries.values (fives [0; 1; 2])) <> [] /\
  exists r k',
    KalmanFilter.kf
      (KalmanFilter.self (scalar_holding (scalar_kf (qc 100 21) (qc 13 21))))
      = Some r /\
    KalmanFilter.heap (scalar_holding (scalar_kf (qc 100 21) (qc 13 21)))
      !! r = Some k' /\
    last (np.rows (TimeSeries.values three_estimates))
      = Some (FpKalmanFilter.x k').
Proof.
  assert (Hf : KalmanFilter.filter always (fives [0; 1; 2]) scalar_world
               = (Ok three_estimates,
                  scalar_holding (scalar_kf (qc 100 21) (qc 13 21))))
    by qc_eval.
  assert (Hne : np.rows (TimeSeries.values (fives [0; 1; 2])) <> [])
    by (vm_compute; discriminate).
  split; [exact Hf|]. split; [exact Hne|].
  exact (filter_last_row_is_state always (fives [0; 1; 2]) scalar_world _ _
           Hf Hne).
Defined.
